(** * Workflow-to-SQL compilation pipeline of [main3.py]

    A shallow embedding of [parse_alteryx_xml] and [generate_sql_from_tools]
    together with the Python library behaviour they rely on (string methods,
    insertion-ordered dictionaries, [int], the stable [list.sort], the
    ElementTree queries), followed by the properties of the pipeline. *)

From Stdlib Require Import String Ascii List ZArith Bool Arith Lia.
From Stdlib Require Import Sorted Permutation DecimalString.
Import ListNotations.

Local Open Scope list_scope.
Local Open Scope string_scope.

(** ** Python [str]

    Strings are sequences of code points below 256. *)
Module PyStr.

Definition nl : string := String (ascii_of_nat 10) EmptyString.

(** [str.isspace] on one character: U+0009..U+000D, U+001C..U+001F,
    U+0020, U+0085 and U+00A0. *)
Definition isspace (c : ascii) : bool :=
  let n := nat_of_ascii c in
  (((9 <=? n) && (n <=? 13)) || ((28 <=? n) && (n <=? 32))
   || (n =? 133) || (n =? 160))%nat.

Definition is_empty (s : string) : bool :=
  match s with EmptyString => true | String _ _ => false end.

(** Dropping the leading, and the trailing, characters that satisfy [p]. *)
Fixpoint lstrip_with (p : ascii -> bool) (s : string) : string :=
  match s with
  | EmptyString => EmptyString
  | String c s' => if p c then lstrip_with p s' else s
  end.

Fixpoint rstrip_with (p : ascii -> bool) (s : string) : string :=
  match s with
  | EmptyString => EmptyString
  | String c s' =>
      let r := rstrip_with p s' in
      if is_empty r && p c then EmptyString else String c r
  end.

(** [s.strip()] *)
Definition strip (s : string) : string :=
  rstrip_with isspace (lstrip_with isspace s).

(** Left-to-right scan of [str.replace] for a non-empty [old]: [skip]
    counts the characters of a match that are still to be dropped. *)
Fixpoint replace_scan (old new : string) (skip : nat) (s : string) : string :=
  match s with
  | EmptyString => EmptyString
  | String c s' =>
      match skip with
      | S k => replace_scan old new k s'
      | O =>
          if prefix old s
          then new ++ replace_scan old new (pred (String.length old)) s'
          else String c (replace_scan old new 0 s')
      end
  end.

Fixpoint intersperse (new s : string) : string :=
  match s with
  | EmptyString => EmptyString
  | String c s' => String c (new ++ intersperse new s')
  end.

(** [s.replace(old, new)]: every non-overlapping occurrence, leftmost
    first; an empty [old] matches before each character and at the end. *)
Definition replace (old new s : string) : string :=
  if is_empty old then new ++ intersperse new s
  else replace_scan old new 0 s.

(** [sep.join(parts)] *)
Fixpoint join (sep : string) (parts : list string) : string :=
  match parts with
  | [] => EmptyString
  | [p] => p
  | p :: ps => p ++ sep ++ join sep ps
  end.

(** [str(n)] for a non-negative integer. *)
Definition of_nat (n : nat) : string := NilEmpty.string_of_uint (Nat.to_uint n).

(** [pat in s] *)
Fixpoint contains (pat s : string) : bool :=
  prefix pat s ||
  match s with
  | EmptyString => false
  | String _ s' => contains pat s'
  end.

Definition is_digit (c : ascii) : bool :=
  let n := nat_of_ascii c in ((48 <=? n) && (n <=? 57))%nat.

Definition digit_value (c : ascii) : Z := Z.of_nat (nat_of_ascii c - 48).

(** Digits of a decimal literal, single underscores allowed between two
    digits. [after_digit] tells whether the previous character was one. *)
Fixpoint digits (s : string) (acc : Z) (after_digit : bool) : option Z :=
  match s with
  | EmptyString => if after_digit then Some acc else None
  | String c s' =>
      if is_digit c then digits s' (10 * acc + digit_value c)%Z true
      else if Ascii.eqb c "_" then
             if after_digit then digits s' acc false else None
           else None
  end.

Fixpoint count_digits (s : string) : nat :=
  match s with
  | EmptyString => 0
  | String c s' => if is_digit c then S (count_digits s') else count_digits s'
  end.

(** The characters [int] skips at both ends: U+0009..U+000D, U+0020,
    U+0085 and U+00A0. *)
Definition is_int_space (c : ascii) : bool :=
  let n := nat_of_ascii c in
  (((9 <=? n) && (n <=? 13)) || (n =? 32) || (n =? 133) || (n =? 160))%nat.

(** The default limit on the digits of a string given to [int]. *)
Definition max_str_digits : nat := 4300.

Definition literal (r : string) : option Z :=
  if (max_str_digits <? count_digits r)%nat then None else digits r 0%Z false.

(** [int(s)] in base ten: surrounding whitespace is dropped, then an
    optional sign, then the digits. [None] stands for [ValueError]. *)
Definition to_int (s : string) : option Z :=
  match rstrip_with is_int_space (lstrip_with is_int_space s) with
  | String "-" r => option_map Z.opp (literal r)
  | String "+" r => literal r
  | r => literal r
  end.

End PyStr.

(** ** Python [dict] with string keys

    A dictionary keeps its keys in insertion order; assigning to a key that
    is already there replaces the value and leaves the key where it is. *)
Module PyDict.
Section Dict.
Context {V : Type}.

Definition dict : Type := list (string * V).

(** [d[k]], [None] standing for [KeyError]. *)
Fixpoint get (d : dict) (k : string) : option V :=
  match d with
  | [] => None
  | (k', v) :: d' => if String.eqb k' k then Some v else get d' k
  end.

(** [d[k] = v] *)
Fixpoint set (d : dict) (k : string) (v : V) : dict :=
  match d with
  | [] => [(k, v)]
  | (k', v') :: d' =>
      if String.eqb k' k then (k', v) :: d' else (k', v') :: set d' k v
  end.

(** [d.keys()] *)
Definition keys (d : dict) : list string := map fst d.

(** [d.copy()] *)
Definition copy (d : dict) : dict := d.
End Dict.
Arguments dict V : clear implicits.
End PyDict.

(** ** Python [list.sort(key=...)]

    The sort is stable; insertion from the right, placing an element in
    front of the first element whose key is not smaller, is the stable
    sort written as a structural recursion. The keys are computed first. *)
Module PyList.
Section Sort.
Context {A : Type}.

Fixpoint insert (x : Z * A) (l : list (Z * A)) : list (Z * A) :=
  match l with
  | [] => [x]
  | y :: l' => if (fst x <=? fst y)%Z then x :: l else y :: insert x l'
  end.

Definition sort_decorated (l : list (Z * A)) : list (Z * A) :=
  fold_right insert [] l.
End Sort.
End PyList.

(** ** ElementTree elements and the path queries the parser uses *)
Module ET.

#[warnings="-register-all"] Inductive Element : Type :=
| Elem (tag : string) (attrib : list (string * string))
       (text : option string) (children : list Element).

Definition tag (e : Element) : string := let 'Elem t _ _ _ := e in t.
Definition attrib (e : Element) := let 'Elem _ a _ _ := e in a.
Definition text (e : Element) : option string := let 'Elem _ _ x _ := e in x.
Definition children (e : Element) : list Element := let 'Elem _ _ _ c := e in c.

(** [e.get(key)] *)
Definition get (e : Element) (key : string) : option string :=
  PyDict.get (attrib e) key.

(** Proper descendants in document order. *)
Fixpoint descendants (e : Element) : list Element :=
  match e with
  | Elem _ _ _ cs =>
      (fix walk (l : list Element) : list Element :=
         match l with
         | [] => []
         | c :: l' => (c :: descendants c ++ walk l')%list
         end) cs
  end.

Definition has_tag (t : string) (e : Element) : bool := String.eqb (tag e) t.

(** [e.findall('.//t')] *)
Definition findall_descendants (e : Element) (t : string) : list Element :=
  filter (has_tag t) (descendants e).

(** [e.find('.//t')] *)
Definition find_descendant (e : Element) (t : string) : option Element :=
  hd_error (findall_descendants e t).

(** [e.findall('t')] *)
Definition findall (e : Element) (t : string) : list Element :=
  filter (has_tag t) (children e).

End ET.

(** ** Data of the pipeline *)

(** One entry of a Select tool's ['fields'] list. *)
Record Field : Type := mkField {
  name : option string;
  selected : bool;
  rename : option string
}.

(** The dictionaries [parse_alteryx_xml] appends to [tools]; ['type'] is the
    constructor. *)
Inductive Tool : Type :=
| Select (id : option string) (fields : list Field) (xml_snippet : string)
| Filter (id : option string) (expression : option string) (xml_snippet : string).

Definition tool_id (t : Tool) : option string :=
  match t with Select i _ _ | Filter i _ _ => i end.

Definition tool_xml_snippet (t : Tool) : string :=
  match t with Select _ _ x | Filter _ _ x => x end.

(** Column name to type tag, in insertion order. *)
Definition Schema : Type := PyDict.dict string.

(** The exceptions the two functions can meet. *)
Inductive py_exn : Type :=
| KeyError (key : option string)
| NameError (ident : string)
| TypeError
| ValueError
| IndexError.

(** A returned pair [(value, None)] or [(None, message)]. *)
Inductive Res (A E : Type) : Type :=
| Success (a : A)
| Failure (e : E).
Arguments Success {A E} a.
Arguments Failure {A E} e.

(** The two messages of [parse_alteryx_xml]. *)
Inductive parse_error : Type :=
| ErrParsingXml                    (* "Error parsing XML: ..." *)
| ErrUnexpectedParsing (e : py_exn) (* "An unexpected error occurred during XML parsing: ..." *).

Definition opt_eqb (a b : option string) : bool :=
  match a, b with
  | Some x, Some y => String.eqb x y
  | None, None => true
  | _, _ => false
  end.

(** [int(x['id'])] *)
Definition int_of_id (t : Tool) : Res Z py_exn :=
  match tool_id t with
  | None => Failure TypeError
  | Some s =>
      match PyStr.to_int s with
      | Some z => Success z
      | None => Failure ValueError
      end
  end.

(** The keys of [tools.sort], computed front to back. *)
Fixpoint decorate (tools : list Tool) : Res (list (Z * Tool)) py_exn :=
  match tools with
  | [] => Success []
  | t :: ts =>
      match int_of_id t with
      | Failure e => Failure e
      | Success k =>
          match decorate ts with
          | Failure e => Failure e
          | Success kts => Success ((k, t) :: kts)
          end
      end
  end.

(** [tools.sort(key=lambda x: int(x['id']))] *)
Definition sort_tools (tools : list Tool) : Res (list Tool) py_exn :=
  match decorate tools with
  | Failure e => Failure e
  | Success kts => Success (map snd (PyList.sort_decorated kts))
  end.

Section Parser.

(** [ET.fromstring] ([None] for [ParseError]) and [ET.tostring] of the
    XML library. *)
Variable ET_fromstring : string -> option ET.Element.
Variable ET_tostring : ET.Element -> string.

Definition parse_field (field : ET.Element) : Field :=
  {| name := ET.get field "Name";
     selected := opt_eqb (ET.get field "Selected") (Some "True");
     rename := ET.get field "Rename" |}.

(** The body of the loop over the [Node] elements: the tool appended for
    this node, if any. *)
Definition parse_node (node : ET.Element) : option Tool :=
  let tool_id := ET.get node "ToolID" in
  let tool_type := ET.get node "Type" in
  if opt_eqb tool_type (Some "Select") then
    let fields :=
      match ET.find_descendant node "Fields" with
      | Some fields_element => map parse_field (ET.findall fields_element "Field")
      | None => []
      end in
    Some (Select tool_id fields (ET_tostring node))
  else if opt_eqb tool_type (Some "Filter") then
    let expression :=
      match ET.find_descendant node "Expression" with
      | Some expression_element => ET.text expression_element
      | None => Some EmptyString
      end in
    Some (Filter tool_id expression (ET_tostring node))
  else None.

Fixpoint extract_tools (nodes : list ET.Element) : list Tool :=
  match nodes with
  | [] => []
  | node :: rest =>
      match parse_node node with
      | Some t => t :: extract_tools rest
      | None => extract_tools rest
      end
  end.

Definition parse_alteryx_xml (xml_string : string) : Res (list Tool) parse_error :=
  match ET_fromstring xml_string with
  | None => Failure ErrParsingXml
  | Some root =>
      let tools := extract_tools (ET.findall_descendants root "Node") in
      match sort_tools tools with
      | Success sorted => Success sorted
      | Failure e => Failure (ErrUnexpectedParsing e)
      end
  end.

End Parser.

(** ** [generate_sql_from_tools] *)

(** The three messages of [generate_sql_from_tools]. *)
Inductive gen_error : Type :=
| ErrNoSteps                 (* "No SQL steps were generated." *)
| ErrModelRetries            (* "Failed to get a response from the model after 5 retries." *)
| ErrGeneration (e : py_exn) (* "An error occurred during SQL generation: ..." *).

(** What one call of [model.generate_content] does: a response, given by
    its [text], or an exception, which the [except Exception] around the
    call catches whatever it is. *)
Inductive Reply : Type :=
| Text (s : string)
| Raises.

(** The effects of a run, in the order they happen. *)
Inductive Event : Type :=
| EvGenerate (prompt : string)
| EvPrint (line : string)
| EvSleep (seconds : nat).

(** The names bound at the top level of [main3.py]: its imports, constants,
    functions and the Flask application. A name that is not among them is
    looked up in the builtins, none of which is called [time]. *)
Definition module_globals : list string :=
  ["os"; "json"; "ET"; "Flask"; "request"; "render_template_string";
   "aiplatform"; "GenerativeModel"; "app"; "PROJECT_ID"; "REGION";
   "MODEL_NAME"; "parse_alteryx_xml"; "generate_sql_from_tools";
   "HTML_TEMPLATE"; "index"; "generate"].

Definition initial_schema : Schema :=
  [("OrderID", "STRING"); ("CustomerName", "STRING");
   ("ProductCategory", "STRING"); ("SalesAmount", "FLOAT")].

Definition initial_cte : string := "initial_data".

Definition max_retries : nat := 5.

(** Truth value of [field['rename']]: [None] and the empty string are false. *)
Definition truthy (o : option string) : bool :=
  match o with
  | Some s => negb (PyStr.is_empty s)
  | None => false
  end.

(** [field['rename'] if field['rename'] else field['name']] *)
Definition effective_name (field : Field) : option string :=
  if truthy (rename field) then rename field else name field.

(** The same key when [field['name']] is the string [n]. *)
Definition output_key (field : Field) (n : string) : string :=
  match effective_name field with
  | Some k => k
  | None => n
  end.

(** The dictionary comprehension of the Select branch, field by field;
    [acc] is the dictionary built so far. *)
Fixpoint select_schema (current_schema : Schema) (fields : list Field)
         (acc : Schema) : Res Schema py_exn :=
  match fields with
  | [] => Success acc
  | field :: rest =>
      if selected field then
        match name field with
        | None => Failure (KeyError None)
        | Some n =>
            match PyDict.get current_schema n with
            | None => Failure (KeyError (Some n))
            | Some ty =>
                select_schema current_schema rest
                              (PyDict.set acc (output_key field n) ty)
            end
        end
      else select_schema current_schema rest acc
  end.

(** [output_schema] as the loop body computes it from [current_schema]. *)
Definition output_schema_of (tool : Tool) (current_schema : Schema)
  : Res Schema py_exn :=
  match tool with
  | Select _ fields _ => select_schema current_schema fields []
  | Filter _ _ _ => Success (PyDict.copy current_schema)
  end.

Definition select_prompt (current_cte schema_json xml_snippet : string) : string :=
  PyStr.nl ++
  "You are a SQL agent specialized in converting Alteryx workflows to BigQuery SQL." ++ PyStr.nl ++
  "Your task is to translate the following Alteryx 'Select' tool's logic into a single BigQuery SQL SELECT statement." ++ PyStr.nl ++
  PyStr.nl ++
  "- **Input CTE:** `" ++ current_cte ++ "`" ++ PyStr.nl ++
  "- **Input Schema:** " ++ schema_json ++ PyStr.nl ++
  "- **Alteryx Tool XML:**" ++ PyStr.nl ++
  xml_snippet ++ PyStr.nl ++
  PyStr.nl ++
  "Generate only the BigQuery SQL SELECT statement. Do not include any explanations." ++ PyStr.nl.

Definition filter_prompt (current_cte schema_json xml_snippet : string) : string :=
  PyStr.nl ++
  "You are a SQL agent specialized in converting Alteryx workflows to BigQuery SQL." ++ PyStr.nl ++
  "Your task is to translate the following Alteryx 'Filter' tool's expression into a BigQuery SQL WHERE clause." ++ PyStr.nl ++
  PyStr.nl ++
  "- **Input CTE:** `" ++ current_cte ++ "`" ++ PyStr.nl ++
  "- **Input Schema:** " ++ schema_json ++ PyStr.nl ++
  "- **Alteryx Tool XML:**" ++ PyStr.nl ++
  xml_snippet ++ PyStr.nl ++
  PyStr.nl ++
  "Generate only the BigQuery SQL WHERE clause, including the 'WHERE' keyword. Do not include any explanations." ++ PyStr.nl.

(** The prompt of the branch taken for [tool]. *)
Definition tool_prompt (tool : Tool) (current_cte schema_json : string) : string :=
  match tool with
  | Select _ _ xml => select_prompt current_cte schema_json xml
  | Filter _ _ xml => filter_prompt current_cte schema_json xml
  end.

Definition retry_message (delay : nat) : string :=
  "API call failed, retrying in " ++ PyStr.of_nat delay ++ "s...".

(** [response.text.strip()] with the opening fence, then any remaining fence,
    replaced by the empty string. *)
Definition clean_snippet (response_text : string) : string :=
  PyStr.replace "```" EmptyString
    (PyStr.replace "```sql" EmptyString (PyStr.strip response_text)).

Definition select_step (next_cte snippet current_cte : string) : string :=
  "WITH " ++ next_cte ++ " AS (" ++ PyStr.nl ++
  "    " ++ snippet ++ PyStr.nl ++
  "FROM " ++ current_cte ++ PyStr.nl ++
  ")".

Definition filter_step (next_cte select_cols current_cte snippet : string) : string :=
  "WITH " ++ next_cte ++ " AS (" ++ PyStr.nl ++
  "    SELECT " ++ select_cols ++ PyStr.nl ++
  "    FROM " ++ current_cte ++ PyStr.nl ++
  "    " ++ snippet ++ PyStr.nl ++
  ")".

Definition source_table : string :=
  "FROM `your_project.your_dataset.your_initial_table`".

(** [f"{tools[0]['id']}"] *)
Definition format_id (i : option string) : string :=
  match i with
  | Some s => s
  | None => "None"
  end.

Definition final_query_text (final_sql_body final_select_cols current_cte : string)
  : string :=
  "CREATE OR REPLACE VIEW `your_project.your_dataset.your_view_name` AS" ++ PyStr.nl ++
  final_sql_body ++ PyStr.nl ++ PyStr.nl ++
  "SELECT" ++ PyStr.nl ++
  "    " ++ final_select_cols ++ PyStr.nl ++
  "FROM" ++ PyStr.nl ++
  "    " ++ current_cte ++ ";".

Section Generator.

(** [json.dumps] on a schema, and the model behind [generate_content]:
    its state and what a call does to it. *)
Variable json_dumps : Schema -> string.
Variable ModelState : Type.
Variable generate_content : ModelState -> string -> Reply * ModelState.

(** The model and the effects so far. *)
Record World : Type := mkWorld {
  model : ModelState;
  events : list Event
}.

(** How a piece of the function body ends: normally, by raising, or by a
    [return] statement. *)
Inductive Outcome (A : Type) : Type :=
| Normal (a : A)
| Raised (e : py_exn)
| Returned (r : Res string gen_error).
Arguments Normal {A} a.
Arguments Raised {A} e.
Arguments Returned {A} r.

Definition M (A : Type) : Type := World -> Outcome A * World.

Definition ret {A} (a : A) : M A := fun w => (Normal a, w).

Definition raise {A} (e : py_exn) : M A := fun w => (Raised e, w).

Definition return_ {A} (r : Res string gen_error) : M A :=
  fun w => (Returned r, w).

Definition bind {A B} (m : M A) (k : A -> M B) : M B :=
  fun w =>
    match m w with
    | (Normal a, w') => k a w'
    | (Raised e, w') => (Raised e, w')
    | (Returned r, w') => (Returned r, w')
    end.

Notation "x <- m ;; k" := (bind m (fun x => k))
  (at level 61, m at next level, right associativity).
Notation "m ;;; k" := (bind m (fun _ => k))
  (at level 61, right associativity).

Definition emit (ev : Event) : M unit :=
  fun w => (Normal tt, mkWorld (model w) (events w ++ [ev])%list).

Definition lift {A} (r : Res A py_exn) : M A :=
  match r with
  | Success a => ret a
  | Failure e => raise e
  end.

(** [model.generate_content(prompt)] inside its [try]. *)
Definition call_model (prompt : string) : M Reply :=
  fun w =>
    let (reply, m') := generate_content (model w) prompt in
    (Normal reply, mkWorld m' (events w ++ [EvGenerate prompt])%list).

(** Looking up a global name of the module. *)
Definition load_global (globals : list string) (ident : string) : M unit :=
  if existsb (String.eqb ident) globals then ret tt else raise (NameError ident).

(** [time.sleep(delay)] *)
Definition time_sleep (globals : list string) (delay : nat) : M unit :=
  load_global globals "time" ;;; emit (EvSleep delay).

(** The [while retries < max_retries ... else] loop; its value is the text
    of the response after [break]. [fuel] bounds the iterations and
    [max_retries - retries] of it is enough. *)
Fixpoint backoff_loop (globals : list string) (fuel retries : nat)
         (prompt : string) : M string :=
  match fuel with
  | O => return_ (Failure ErrModelRetries)
  | S fuel' =>
      if (retries <? max_retries)%nat then
        reply <- call_model prompt ;;
        match reply with
        | Text response_text => ret response_text
        | Raises =>
            let retries := (retries + 1)%nat in
            let delay := (2 ^ retries)%nat in
            emit (EvPrint (retry_message delay)) ;;;
            time_sleep globals delay ;;;
            backoff_loop globals fuel' retries prompt
        end
      else return_ (Failure ErrModelRetries)
  end.

(** The variables the [for] loop carries from one tool to the next. *)
Record LoopState : Type := mkLoop {
  current_cte : string;
  current_schema : Schema;
  sql_steps : list string
}.

(** One iteration of [for i, tool in enumerate(tools)]. *)
Definition loop_body (globals : list string) (i : nat) (tool : Tool)
           (st : LoopState) : M LoopState :=
  let next_cte := "cte_" ++ PyStr.of_nat (i + 1) in
  output_schema <- lift (output_schema_of tool (current_schema st)) ;;
  let prompt :=
    tool_prompt tool (current_cte st) (json_dumps (current_schema st)) in
  response_text <- backoff_loop globals max_retries 0 prompt ;;
  let generated_sql_snippet := clean_snippet response_text in
  let step :=
    match tool with
    | Select _ _ _ => select_step next_cte generated_sql_snippet (current_cte st)
    | Filter _ _ _ =>
        filter_step next_cte (PyStr.join ", " (PyDict.keys output_schema))
                    (current_cte st) generated_sql_snippet
    end in
  ret (mkLoop next_cte (PyDict.copy output_schema) (sql_steps st ++ [step])%list).

Fixpoint for_tools (globals : list string) (i : nat) (tools : list Tool)
         (st : LoopState) : M LoopState :=
  match tools with
  | [] => ret st
  | tool :: rest =>
      st' <- loop_body globals i tool st ;;
      for_tools globals (S i) rest st'
  end.

(** The statements after the loop. *)
Definition assemble (tools : list Tool) (st : LoopState) : M string :=
  match sql_steps st with
  | [] => return_ (Failure ErrNoSteps)
  | _ :: _ =>
      let final_sql_body := PyStr.join (PyStr.nl ++ PyStr.nl) (sql_steps st) in
      let final_select_cols := PyStr.join ", " (PyDict.keys (current_schema st)) in
      match tools with
      | [] => raise IndexError
      | first :: _ =>
          let final_sql_body :=
            PyStr.replace ("FROM " ++ format_id (tool_id first)) source_table
                          final_sql_body in
          ret (final_query_text final_sql_body final_select_cols (current_cte st))
      end
  end.

(** The body of the outer [try] with the module's globals [globals]. The
    client built by [GenerativeModel(MODEL_NAME)] is the model whose calls
    are [generate_content]. *)
Definition generate_sql_body (globals : list string) (tools : list Tool) : M string :=
  st <- for_tools globals 0 tools (mkLoop initial_cte initial_schema []) ;;
  assemble tools st.

(** The function under given globals: the [except Exception] clause turns
    an exception into the third message. *)
Definition generate_sql_with (globals : list string) (tools : list Tool)
           (w : World) : Res string gen_error * World :=
  match generate_sql_body globals tools w with
  | (Normal final_query, w') => (Success final_query, w')
  | (Returned r, w') => (r, w')
  | (Raised e, w') => (Failure (ErrGeneration e), w')
  end.

Definition generate_sql_from_tools (tools : list Tool) (w : World)
  : Res string gen_error * World :=
  generate_sql_with module_globals tools w.

End Generator.

Arguments Normal {A} a.
Arguments Raised {A} e.
Arguments Returned {A} r.
Arguments mkWorld {ModelState} model events.
Arguments model {ModelState} w.
Arguments events {ModelState} w.
Arguments ret {ModelState A} a w.
Arguments raise {ModelState A} e w.
Arguments return_ {ModelState A} r w.
Arguments bind {ModelState A B} m k w.
Arguments emit {ModelState} ev w.
Arguments lift {ModelState A} r w.
Arguments call_model {ModelState} generate_content prompt w.
Arguments load_global {ModelState} globals ident w.
Arguments time_sleep {ModelState} globals delay w.
Arguments backoff_loop {ModelState} generate_content globals fuel retries prompt w.
Arguments loop_body json_dumps {ModelState} generate_content globals i tool st w.
Arguments for_tools json_dumps {ModelState} generate_content globals i tools st w.
Arguments assemble {ModelState} tools st w.
Arguments generate_sql_body json_dumps {ModelState} generate_content globals tools w.
Arguments generate_sql_with json_dumps {ModelState} generate_content globals tools w.
Arguments generate_sql_from_tools json_dumps {ModelState} generate_content tools w.

(** ** Notions used to state the properties *)

(** The schemas the loop hands from tool to tool, without the model calls. *)
Fixpoint propagate (tools : list Tool) (s : Schema) : Res Schema py_exn :=
  match tools with
  | [] => Success s
  | tool :: rest =>
      match output_schema_of tool s with
      | Success s' => propagate rest (PyDict.copy s')
      | Failure e => Failure e
      end
  end.

(** [field] is selected and its output column is [k]. *)
Definition yields (k : string) (field : Field) : bool :=
  selected field && opt_eqb (effective_name field) (Some k).

(** The last field of the list that is selected with output column [k]. *)
Fixpoint last_yielding (k : string) (fields : list Field) : option Field :=
  match fields with
  | [] => None
  | field :: rest =>
      match last_yielding k rest with
      | Some g => Some g
      | None => if yields k field then Some field else None
      end
  end.

(** [current_schema[field['name']]] as an option. *)
Definition type_of (s : Schema) (field : Field) : option string :=
  match name field with
  | Some n => PyDict.get s n
  | None => None
  end.

(** The output name in the specification's words: the rename when there is
    one, else the name. *)
Definition coalesce_name (field : Field) : option string :=
  match rename field with
  | Some r => Some r
  | None => name field
  end.

(** Order of two decorated elements by their keys. *)
Definition key_le {A : Type} (x y : Z * A) : Prop := (fst x <= fst y)%Z.

(** The seconds slept and the number of model calls in a list of events. *)
Fixpoint sleeps (evs : list Event) : list nat :=
  match evs with
  | [] => []
  | EvSleep n :: rest => n :: sleeps rest
  | _ :: rest => sleeps rest
  end.

Fixpoint calls (evs : list Event) : nat :=
  match evs with
  | [] => 0
  | EvGenerate _ :: rest => S (calls rest)
  | _ :: rest => calls rest
  end.

(** A computation that only adds events, and one whose first added event
    is [ev]. *)
Definition only_appends {ModelState A : Type} (m : M ModelState A) : Prop :=
  forall w, exists evs, events (snd (m w)) = (events w ++ evs)%list.

Definition begins_with {ModelState A : Type} (ev : Event) (m : M ModelState A)
  : Prop :=
  forall w, exists evs, events (snd (m w)) = (events w ++ ev :: evs)%list.

(** The integer value of a tool's id, 0 when [int] rejects the id. *)
Definition key_of (t : Tool) : Z :=
  match int_of_id t with
  | Success k => k
  | Failure _ => 0%Z
  end.

(** The keys of the sorted tools are the integers [ks]. *)
Definition ids_are (tools : list Tool) (ks : list Z) : Prop :=
  map int_of_id tools = map Success ks.

(** ** The routes *)

(** The message of [generate] for an empty form field, and those of the
    two functions it calls. *)
Inductive page_error : Type :=
| ErrNoInput                 (* "Please provide valid Alteryx XML input." *)
| ErrParse (e : parse_error)
| ErrSql (e : gen_error).

(** The variables a route gives to [render_template_string] along with
    [HTML_TEMPLATE]. *)
Inductive Page : Type :=
| PlainPage
| ErrorPage (error_message : page_error)
| QueryPage (sql_query : string).

Module Routes.
Section Routes.

Variable ET_fromstring : string -> option ET.Element.
Variable ET_tostring : ET.Element -> string.
Variable json_dumps : Schema -> string.
Variable ModelState : Type.
Variable generate_content : ModelState -> string -> Reply * ModelState.

Definition index : Page := PlainPage.

(** [form_value] is the form's [alteryx_xml_input] field, [None] when the
    form does not have it. *)
Definition generate (form_value : option string) (w : World ModelState)
  : Page * World ModelState :=
  let alteryx_xml_input :=
    match form_value with
    | Some v => v
    | None => EmptyString
    end in
  if PyStr.is_empty alteryx_xml_input then (ErrorPage ErrNoInput, w)
  else
    match parse_alteryx_xml ET_fromstring ET_tostring alteryx_xml_input with
    | Failure error => (ErrorPage (ErrParse error), w)
    | Success tools =>
        match generate_sql_from_tools json_dumps generate_content tools w with
        | (Failure error, w') => (ErrorPage (ErrSql error), w')
        | (Success sql_query, w') => (QueryPage sql_query, w')
        end
    end.

End Routes.
End Routes.

Arguments Routes.generate ET_fromstring ET_tostring json_dumps {ModelState}
  generate_content form_value w.

(** ** Further notions *)

(** A node the parser makes a tool of. *)
Definition supported (node : ET.Element) : bool :=
  opt_eqb (ET.get node "Type") (Some "Select")
  || opt_eqb (ET.get node "Type") (Some "Filter").

(** The output names of the selected fields, in the order of the fields. *)
Fixpoint output_names (fields : list Field) : list string :=
  match fields with
  | [] => []
  | field :: rest =>
      if selected field then
        match effective_name field with
        | Some k => k :: output_names rest
        | None => output_names rest
        end
      else output_names rest
  end.

(** The names of [l] that are not in [seen] and come for the first time. *)
Fixpoint first_occurrences (seen l : list string) : list string :=
  match l with
  | [] => []
  | k :: rest =>
      if existsb (String.eqb k) seen then first_occurrences seen rest
      else k :: first_occurrences (seen ++ [k])%list rest
  end.

(** The CTE that the step of position [k] (from 0) reads from. *)
Definition previous_cte (k : nat) : string :=
  match k with
  | O => initial_cte
  | S _ => "cte_" ++ PyStr.of_nat k
  end.

(** The step the loop appends for [tool]: [schema] is the tool's output
    schema, [cte] the CTE it reads from. *)
Definition step_of (tool : Tool) (next_cte : string) (schema : Schema)
           (cte snippet : string) : string :=
  match tool with
  | Select _ _ _ => select_step next_cte snippet cte
  | Filter _ _ _ =>
      filter_step next_cte (PyStr.join ", " (PyDict.keys schema)) cte snippet
  end.

(** No backtick in the text. *)
Fixpoint no_tick (s : string) : bool :=
  match s with
  | EmptyString => true
  | String c s' => negb (Ascii.eqb c "`") && no_tick s'
  end.

(** From state [m], the model raises on the first [k] calls with [prompt]
    and answers [text] on the next. *)
Fixpoint fails_then_answers {ModelState : Type}
         (generate_content : ModelState -> string -> Reply * ModelState)
         (m : ModelState) (prompt : string) (k : nat) (text : string) : Prop :=
  match k with
  | O => fst (generate_content m prompt) = Text text
  | S k' =>
      fst (generate_content m prompt) = Raises /\
      fails_then_answers generate_content (snd (generate_content m prompt))
                         prompt k' text
  end.

Definition is_filter (tool : Tool) : bool :=
  match tool with
  | Filter _ _ _ => true
  | Select _ _ _ => false
  end.

(** The events that are a call of the model. *)
Definition is_call (ev : Event) : bool :=
  match ev with
  | EvGenerate _ => true
  | _ => false
  end.

(** ** Sample inputs *)

(** A serializer and a [json.dumps] good enough for the samples. *)
Definition sample_tostring (e : ET.Element) : string :=
  "<" ++ ET.tag e ++ " ToolID='" ++ format_id (ET.get e "ToolID") ++ "'/>".

Definition sample_dumps (s : Schema) : string :=
  "{" ++ PyStr.join ", " (map (fun kv => fst kv ++ ": " ++ snd kv) s) ++ "}".

Definition filter_node (i expr : string) : ET.Element :=
  ET.Elem "Node" [("ToolID", i); ("Type", "Filter")] None
    [ET.Elem "Configuration" [] None
       [ET.Elem "Expression" [] (Some expr) []]].

(** A workflow declaring its tools in the order 3, 1, 2. *)
Definition shuffled_root : ET.Element :=
  ET.Elem "AlteryxWorkflow" [] None
    [filter_node "3" "[c] > 3"; filter_node "1" "[a] > 1"; filter_node "2" "[b] > 2"].

Definition shuffled_parser (xml_string : string) : option ET.Element :=
  Some shuffled_root.

(** The schema and the Select tool of the projection example: [A] selected
    and renamed [X], [B] not selected. *)
Definition ab_schema : Schema := [("A", "STRING"); ("B", "FLOAT")].

Definition ab_fields : list Field :=
  [mkField (Some "A") true (Some "X"); mkField (Some "B") false None].

(** Two selected fields renamed to the same column. *)
Definition clash_fields : list Field :=
  [mkField (Some "A") true (Some "X"); mkField (Some "B") true (Some "X")].

(** A selected field whose [Rename] attribute is there and empty. *)
Definition empty_rename_field : Field :=
  mkField (Some "A") true (Some EmptyString).

Definition empty_rename_element : ET.Element :=
  ET.Elem "Field"
    [("Name", "A"); ("Selected", "True"); ("Rename", EmptyString)] None [].

(** A [Field] element without the [Selected] attribute. *)
Definition unflagged_element : ET.Element :=
  ET.Elem "Field" [("Name", "A"); ("Rename", "X")] None [].

(** A model that gives the listed answers, one per call, and raises once
    they are used up; its state counts the calls. *)
Definition scripted_model (answers : list string) (calls : nat) (prompt : string)
  : Reply * nat :=
  (match nth_error answers calls with
   | Some answer => Text answer
   | None => Raises
   end, S calls).

Definition fresh_world : World nat := mkWorld 0 [].

(** A Select tool asking for a column the source data does not have. *)
Definition region_tool : Tool :=
  Select (Some "1") [mkField (Some "Region") true None] "<Node ToolID='1'/>".

(** The two tools of the form's sample workflow and answers for them. *)
Definition demo_tools : list Tool :=
  [Select (Some "1")
     [mkField (Some "OrderID") true (Some "transaction_id");
      mkField (Some "CustomerName") true None;
      mkField (Some "ProductCategory") false None;
      mkField (Some "SalesAmount") true (Some "total_sales")]
     "<Node ToolID='1'/>";
   Filter (Some "2") (Some "[total_sales] > 1000 AND [CustomerName] = 'Alice'")
     "<Node ToolID='2'/>"].

Definition demo_answers : list string :=
  ["```sql" ++ PyStr.nl ++
   "SELECT OrderID AS transaction_id, CustomerName, SalesAmount AS total_sales" ++
   PyStr.nl ++ "```";
   "WHERE total_sales > 1000 AND CustomerName = 'Alice'"].

Definition demo_query : string :=
  "CREATE OR REPLACE VIEW `your_project.your_dataset.your_view_name` AS" ++ PyStr.nl ++
  "WITH cte_1 AS (" ++ PyStr.nl ++
  "    " ++ PyStr.nl ++
  "SELECT OrderID AS transaction_id, CustomerName, SalesAmount AS total_sales" ++ PyStr.nl ++
  PyStr.nl ++
  "FROM initial_data" ++ PyStr.nl ++
  ")" ++ PyStr.nl ++
  PyStr.nl ++
  "WITH cte_2 AS (" ++ PyStr.nl ++
  "    SELECT transaction_id, CustomerName, total_sales" ++ PyStr.nl ++
  "    FROM cte_1" ++ PyStr.nl ++
  "    WHERE total_sales > 1000 AND CustomerName = 'Alice'" ++ PyStr.nl ++
  ")" ++ PyStr.nl ++
  PyStr.nl ++
  "SELECT" ++ PyStr.nl ++
  "    transaction_id, CustomerName, total_sales" ++ PyStr.nl ++
  "FROM" ++ PyStr.nl ++
  "    cte_2;".

(** More sample documents: one with a node of a type the parser does not
    know, one with a Filter node that has no [ToolID], one with two ids of
    the same integer value. *)
Definition typed_node (ty : string) (attrs : list (string * string)) : ET.Element :=
  ET.Elem "Node" (attrs ++ [("Type", ty)])%list None [].

Definition mixed_root : ET.Element :=
  ET.Elem "AlteryxWorkflow" [] None
    [typed_node "Join" [("ToolID", "5")]; filter_node "2" "[b] > 2";
     typed_node "Select" [("ToolID", "1")]].


Definition same_id_root : ET.Element :=
  ET.Elem "AlteryxWorkflow" [] None
    [filter_node "2" "[b] > 2"; filter_node "1" "[a] > 1";
     filter_node "01" "[c] > 3"].

(** A model that answers every call with the same text. *)
Definition steady_model (answer : string) (calls : nat) (prompt : string)
  : Reply * nat :=
  (Text answer, S calls).

(** A model that raises on its first [k] calls and answers afterwards. *)
Definition flaky_model (k : nat) (answer : string) (calls : nat) (prompt : string)
  : Reply * nat :=
  (if (calls <? k)%nat then Raises else Text answer, S calls).

Definition unsupported_root : ET.Element :=
  ET.Elem "AlteryxWorkflow" [] None
    [typed_node "Join" [("ToolID", "5")]; typed_node "Sort" [("ToolID", "6")]].

(** * Properties *)

(** ** Library behaviour *)

Example strip_ex : PyStr.strip "  ```sql x  " = "```sql x".
Proof. reflexivity. Qed.

Example replace_ex : PyStr.replace "```" EmptyString "```sql a```b" = "sql ab".
Proof. reflexivity. Qed.

Example to_int_ex :
  map PyStr.to_int
      ["3"; " 12 "; "-7"; "+5"; "0010"; "1_000"; "1__0"; "_1"; "1_"; "-_1";
       EmptyString; "a"; "+ 1"; "1 2"; "--1"; "1.0"]
  = [Some 3; Some 12; Some (-7); Some 5; Some 10; Some 1000; None; None; None;
     None; None; None; None; None; None; None]%Z.
Proof. reflexivity. Qed.

Lemma dict_get_set {V : Type} (d : PyDict.dict V) (k k' : string) (v : V) :
  PyDict.get (PyDict.set d k v) k' =
  if String.eqb k k' then Some v else PyDict.get d k'.
Proof.
  induction d as [|[k0 v0] d IH]; simpl.
  - reflexivity.
  - destruct (String.eqb k0 k) eqn:E0; simpl.
    + apply String.eqb_eq in E0. subst k0.
      destruct (String.eqb k k'); reflexivity.
    + destruct (String.eqb k0 k') eqn:E1.
      * apply String.eqb_eq in E1. subst k0.
        rewrite String.eqb_sym in E0. now rewrite E0.
      * exact IH.
Qed.

Lemma dict_get_in_keys {V : Type} (d : PyDict.dict V) (k : string) :
  In k (PyDict.keys d) <-> PyDict.get d k <> None.
Proof.
  induction d as [|[k0 v0] d IH]; simpl.
  - split; [tauto | congruence].
  - destruct (String.eqb k0 k) eqn:E.
    + apply String.eqb_eq in E. split; [discriminate | auto].
    + apply String.eqb_neq in E. rewrite <- IH. tauto.
Qed.

Section SortFacts.
Context {A : Type}.

Lemma insert_perm (x : Z * A) (l : list (Z * A)) :
  Permutation (PyList.insert x l) (x :: l).
Proof.
  induction l as [|y l IH]; simpl.
  - apply Permutation_refl.
  - destruct (fst x <=? fst y)%Z.
    + apply Permutation_refl.
    + eapply perm_trans; [apply perm_skip, IH | apply perm_swap].
Qed.

Lemma sort_decorated_perm (l : list (Z * A)) :
  Permutation (PyList.sort_decorated l) l.
Proof.
  induction l as [|x l IH]; simpl.
  - apply perm_nil.
  - eapply perm_trans; [apply insert_perm | apply perm_skip, IH].
Qed.

Lemma insert_hdrel (a x : Z * A) (l : list (Z * A)) :
  key_le a x -> HdRel key_le a l -> HdRel key_le a (PyList.insert x l).
Proof.
  intros Hax Hal. destruct l as [|y l]; simpl.
  - constructor. exact Hax.
  - destruct (fst x <=? fst y)%Z; constructor.
    + exact Hax.
    + now inversion Hal.
Qed.

Lemma insert_sorted (x : Z * A) (l : list (Z * A)) :
  Sorted key_le l -> Sorted key_le (PyList.insert x l).
Proof.
  induction l as [|y l IH]; simpl; intros Hs.
  - repeat constructor.
  - destruct (fst x <=? fst y)%Z eqn:E.
    + constructor; [exact Hs | constructor; apply Z.leb_le, E].
    + inversion Hs as [|? ? Hs' Hhd]; subst.
      constructor; [apply IH, Hs' |].
      apply insert_hdrel; [| exact Hhd].
      apply Z.leb_gt in E. unfold key_le. lia.
Qed.

Lemma sort_decorated_sorted (l : list (Z * A)) :
  Sorted key_le (PyList.sort_decorated l).
Proof.
  induction l as [|x l IH]; simpl.
  - constructor.
  - apply insert_sorted, IH.
Qed.

Lemma sorted_map_fst (l : list (Z * A)) :
  Sorted key_le l -> Sorted Z.le (map fst l).
Proof.
  induction 1 as [|x l Hs IH Hhd]; simpl; constructor.
  - exact IH.
  - destruct Hhd; simpl; constructor. assumption.
Qed.

End SortFacts.

(** The sort keeps, among tools of equal key, the order of the list. *)
Lemma insert_stable {A : Type} (k : Z) (x : Z * A) (l : list (Z * A)) :
  filter (fun y => Z.eqb (fst y) k) (PyList.insert x l) =
  filter (fun y => Z.eqb (fst y) k) (x :: l).
Proof.
  induction l as [|y l IH].
  - reflexivity.
  - cbn [PyList.insert]. destruct (fst x <=? fst y)%Z eqn:E.
    + reflexivity.
    + cbn [filter] in *. apply Z.leb_gt in E.
      destruct (Z.eqb (fst y) k) eqn:Ey, (Z.eqb (fst x) k) eqn:Ex;
        try (apply Z.eqb_eq in Ey; apply Z.eqb_eq in Ex; lia);
        rewrite IH; reflexivity.
Qed.

Lemma sort_decorated_stable {A : Type} (k : Z) (l : list (Z * A)) :
  filter (fun y => Z.eqb (fst y) k) (PyList.sort_decorated l) =
  filter (fun y => Z.eqb (fst y) k) l.
Proof.
  induction l as [|x l IH].
  - reflexivity.
  - cbn [PyList.sort_decorated fold_right]. rewrite insert_stable.
    cbn [filter]. fold (PyList.sort_decorated l). now rewrite IH.
Qed.

(** ** The parser *)

Lemma decorate_spec (tools : list Tool) (kts : list (Z * Tool)) :
  decorate tools = Success kts ->
  map snd kts = tools /\
  Forall (fun kt => int_of_id (snd kt) = Success (fst kt)) kts.
Proof.
  revert kts. induction tools as [|t ts IH]; simpl; intros kts H.
  - injection H as <-. split; constructor.
  - destruct (int_of_id t) as [k|e] eqn:Ek; [|discriminate].
    destruct (decorate ts) as [kts'|e] eqn:Ed; [|discriminate].
    injection H as <-. destruct (IH _ eq_refl) as [Hm Hf].
    split; simpl; [now rewrite Hm | constructor; assumption].
Qed.

Lemma forall_keys_map (kts : list (Z * Tool)) :
  Forall (fun kt => int_of_id (snd kt) = Success (fst kt)) kts ->
  ids_are (map snd kts) (map fst kts).
Proof.
  unfold ids_are. induction 1 as [|kt l Hk _ IH]; simpl.
  - reflexivity.
  - now rewrite Hk, IH.
Qed.

Lemma sort_tools_spec (tools sorted : list Tool) :
  sort_tools tools = Success sorted ->
  Permutation tools sorted /\
  exists ks, ids_are sorted ks /\ Sorted Z.le ks.
Proof.
  unfold sort_tools. intros H.
  destruct (decorate tools) as [kts|e] eqn:Ed; [|discriminate].
  injection H as <-. destruct (decorate_spec _ _ Ed) as [Hm Hf].
  pose proof (sort_decorated_perm kts) as Hp. split.
  - rewrite <- Hm. apply Permutation_map, Permutation_sym, Hp.
  - exists (map fst (PyList.sort_decorated kts)). split.
    + apply forall_keys_map.
      rewrite Forall_forall in *. intros kt Hin. apply Hf.
      eapply Permutation_in; eassumption.
    + apply sorted_map_fst, sort_decorated_sorted.
Qed.

(** With distinct ids the sorted list is determined by the set of tools. *)
Lemma ids_are_keys (tools : list Tool) :
  forall ks, ids_are tools ks -> ks = map key_of tools.
Proof.
  unfold ids_are. induction tools as [|t ts IH]; intros [|k ks] H;
    try discriminate; [reflexivity |].
  simpl in H. injection H as Hk Hks. simpl. unfold key_of at 1.
  rewrite Hk. f_equal. now apply IH.
Qed.

Lemma strictly_sorted_keys (l : list Tool) :
  Sorted Z.le (map key_of l) -> NoDup (map key_of l) ->
  StronglySorted (fun a b => (key_of a < key_of b)%Z) l.
Proof.
  intros Hs Hn.
  apply Sorted_StronglySorted in Hs; [| intros x y z; apply Z.le_trans].
  induction l as [|a l IH]; simpl in *; constructor.
  - inversion Hs; inversion Hn; auto.
  - inversion Hs as [|? ? _ Hall]; inversion Hn as [|? ? Hnotin _]; subst.
    rewrite Forall_forall in *. intros b Hb.
    assert (Hle : (key_of a <= key_of b)%Z) by (apply Hall, in_map, Hb).
    assert (Hne : key_of a <> key_of b).
    { intros E. apply Hnotin. rewrite E. apply in_map, Hb. }
    lia.
Qed.

Lemma strictly_sorted_unique (l1 : list Tool) :
  forall l2,
    StronglySorted (fun a b => (key_of a < key_of b)%Z) l1 ->
    StronglySorted (fun a b => (key_of a < key_of b)%Z) l2 ->
    Permutation l1 l2 -> l1 = l2.
Proof.
  induction l1 as [|a l1 IH]; intros l2 H1 H2 Hp.
  - apply Permutation_nil in Hp. now subst.
  - destruct l2 as [|b l2];
      [apply Permutation_sym, Permutation_nil in Hp; discriminate |].
    inversion H1 as [|? ? H1' Ha]; inversion H2 as [|? ? H2' Hb]; subst.
    assert (Hab : a = b).
    { assert (Hina : In a (b :: l2))
        by (eapply Permutation_in; [exact Hp | now left]).
      assert (Hinb : In b (a :: l1))
        by (eapply Permutation_in; [apply Permutation_sym, Hp | now left]).
      destruct Hina as [->|Hina]; [reflexivity |].
      destruct Hinb as [->|Hinb]; [reflexivity |].
      rewrite Forall_forall in Ha, Hb.
      specialize (Ha _ Hinb). specialize (Hb _ Hina). lia. }
    subst b. f_equal. apply IH; try assumption.
    eapply Permutation_cons_inv, Hp.
Qed.

Lemma sorted_tools_unique (t1 t2 : list Tool) (ks1 ks2 : list Z) :
  ids_are t1 ks1 -> Sorted Z.le ks1 -> NoDup ks1 ->
  ids_are t2 ks2 -> Sorted Z.le ks2 ->
  Permutation t1 t2 -> t2 = t1.
Proof.
  intros I1 S1 N1 I2 S2 Hp.
  apply ids_are_keys in I1, I2. subst ks1 ks2.
  symmetry. apply strictly_sorted_unique; try assumption.
  - now apply strictly_sorted_keys.
  - apply strictly_sorted_keys; [assumption |].
    eapply Permutation_NoDup; [apply Permutation_map, Hp | exact N1].
Qed.

Section Properties.

Variable ET_fromstring : string -> option ET.Element.
Variable ET_tostring : ET.Element -> string.
Variable json_dumps : Schema -> string.
Variable ModelState : Type.
Variable generate_content : ModelState -> string -> Reply * ModelState.

(** ** The loop runs through the list front to back *)

Lemma bind_assoc {A B C : Type} (m : M ModelState A) (k : A -> M ModelState B)
      (h : B -> M ModelState C) (w : World ModelState) :
  bind (bind m k) h w = bind m (fun a => bind (k a) h) w.
Proof.
  unfold bind. destruct (m w) as [[a|e|r] w']; reflexivity.
Qed.

Lemma bind_ext {A B : Type} (m : M ModelState A) (k k' : A -> M ModelState B)
      (w : World ModelState) :
  (forall a w', k a w' = k' a w') -> bind m k w = bind m k' w.
Proof.
  intros H. unfold bind. destruct (m w) as [[a|e|r] w']; auto.
Qed.

Lemma bind_normal {A B : Type} (m : M ModelState A) (k : A -> M ModelState B)
      (w w' : World ModelState) (a : A) :
  m w = (Normal a, w') -> bind m k w = k a w'.
Proof. intros H. unfold bind. now rewrite H. Qed.

Lemma bind_raised {A B : Type} (m : M ModelState A) (k : A -> M ModelState B)
      (w w' : World ModelState) (e : py_exn) :
  m w = (Raised e, w') -> bind m k w = (Raised e, w').
Proof. intros H. unfold bind. now rewrite H. Qed.

Lemma bind_returned {A B : Type} (m : M ModelState A) (k : A -> M ModelState B)
      (w w' : World ModelState) (r : Res string gen_error) :
  m w = (Returned r, w') -> bind m k w = (Returned r, w').
Proof. intros H. unfold bind. now rewrite H. Qed.

Lemma for_tools_app globals (before after : list Tool) :
  forall i st (w : World ModelState),
    for_tools json_dumps generate_content globals i (before ++ after)%list st w =
    bind (for_tools json_dumps generate_content globals i before st)
         (fun st1 =>
            for_tools json_dumps generate_content globals (i + length before)
                      after st1) w.
Proof.
  induction before as [|t ts IH]; intros i st w.
  - simpl. unfold bind, ret. now rewrite Nat.add_0_r.
  - cbn [for_tools app length]. rewrite bind_assoc. apply bind_ext.
    intros st1 w1. rewrite IH. apply bind_ext. intros st2 w2.
    now replace (S i + length ts) with (i + S (length ts)) by lia.
Qed.

(** C2: a parsed workflow lists its tools in ascending order of the integer
    value of their ids, whatever the order of the nodes in the document: the
    result is a rearrangement of the extracted tools, sorted by [int(id)];
    when the ids are distinct, a document declaring the same tools in any
    other order parses to the same list; and the loop of
    [generate_sql_from_tools] handles the tool at each position of that list
    after all the tools before it. *)
Theorem parse_orders_by_id (xml_string : string) (tools : list Tool) :
  parse_alteryx_xml ET_fromstring ET_tostring xml_string = Success tools ->
  (exists root ks,
      ET_fromstring xml_string = Some root /\
      Permutation
        (extract_tools ET_tostring (ET.findall_descendants root "Node")) tools /\
      ids_are tools ks /\ Sorted Z.le ks /\
      (NoDup ks ->
       forall xml_string' root' tools',
         ET_fromstring xml_string' = Some root' ->
         Permutation
           (extract_tools ET_tostring (ET.findall_descendants root "Node"))
           (extract_tools ET_tostring (ET.findall_descendants root' "Node")) ->
         parse_alteryx_xml ET_fromstring ET_tostring xml_string' = Success tools' ->
         tools' = tools)) /\
  (forall globals before tool after st (w : World ModelState),
      tools = (before ++ tool :: after)%list ->
      for_tools json_dumps generate_content globals 0 tools st w =
      bind (for_tools json_dumps generate_content globals 0 before st)
           (fun st1 =>
              bind (loop_body json_dumps generate_content globals
                              (length before) tool st1)
                   (fun st2 =>
                      for_tools json_dumps generate_content globals
                                (S (length before)) after st2)) w).
Proof.
  unfold parse_alteryx_xml. intros H.
  destruct (ET_fromstring xml_string) as [root|] eqn:Er; [|discriminate].
  destruct (sort_tools _) as [sorted|e] eqn:Es; [|discriminate].
  injection H as <-. apply sort_tools_spec in Es as [Hp [ks [Hk Hs]]].
  split.
  - exists root, ks. repeat split; try assumption.
    intros Hn xml_string' root' tools' Er' Hpp H'.
    rewrite Er' in H'.
    destruct (sort_tools _) as [sorted'|e'] eqn:Es'; [|discriminate].
    injection H' as <-. apply sort_tools_spec in Es' as [Hp' [ks' [Hk' Hs']]].
    eapply sorted_tools_unique; try eassumption.
    eapply perm_trans; [apply Permutation_sym, Hp |].
    eapply perm_trans; [exact Hpp | exact Hp'].
  - intros globals before tool after st w ->. now rewrite for_tools_app.
Qed.

End Properties.

(** The tools declared as 3, 1, 2 come out as 1, 2, 3. *)
Lemma parse_orders_by_id_witness :
  parse_alteryx_xml shuffled_parser sample_tostring "<AlteryxWorkflow/>" =
  Success [Filter (Some "1") (Some "[a] > 1") "<Node ToolID='1'/>";
           Filter (Some "2") (Some "[b] > 2") "<Node ToolID='2'/>";
           Filter (Some "3") (Some "[c] > 3") "<Node ToolID='3'/>"] /\
  exists ks,
    ids_are [Filter (Some "1") (Some "[a] > 1") "<Node ToolID='1'/>";
             Filter (Some "2") (Some "[b] > 2") "<Node ToolID='2'/>";
             Filter (Some "3") (Some "[c] > 3") "<Node ToolID='3'/>"] ks /\
    Sorted Z.le ks.
Proof.
  split; [reflexivity |].
  destruct (proj1 (parse_orders_by_id shuffled_parser sample_tostring sample_dumps
                     unit (fun m _ => (Raises, m)) "<AlteryxWorkflow/>" _ eq_refl))
    as [root [ks [_ [_ [Hk [Hs _]]]]]].
  exists ks. split; assumption.
Defined.

(** ** The schema of a Select tool *)

Lemma opt_eqb_eq (a b : option string) : opt_eqb a b = true <-> a = b.
Proof.
  destruct a as [x|], b as [y|]; simpl; try (split; congruence).
  rewrite String.eqb_eq. split; congruence.
Qed.

Lemma effective_name_key (field : Field) (n : string) :
  name field = Some n -> effective_name field = Some (output_key field n).
Proof.
  unfold output_key, effective_name. intros Hn.
  destruct (truthy (rename field)) eqn:Et.
  - destruct (rename field) as [r|]; [reflexivity | discriminate].
  - now rewrite Hn.
Qed.

Lemma last_yielding_some (k : string) (fields : list Field) (g : Field) :
  last_yielding k fields = Some g -> In g fields /\ yields k g = true.
Proof.
  induction fields as [|f rest IH]; simpl; [discriminate |].
  destruct (last_yielding k rest) as [g'|].
  - intros H. injection H as <-. destruct (IH eq_refl). auto.
  - destruct (yields k f) eqn:Ey; [|discriminate].
    intros H. injection H as <-. auto.
Qed.

Lemma last_yielding_exists (k : string) (fields : list Field) (f : Field) :
  In f fields -> yields k f = true -> exists g, last_yielding k fields = Some g.
Proof.
  induction fields as [|f0 rest IH]; simpl; [tauto |].
  intros [->|Hin] Hy.
  - destruct (last_yielding k rest) as [g|]; [now exists g |].
    rewrite Hy. now exists f.
  - destruct (IH Hin Hy) as [g ->]. now exists g.
Qed.

Lemma select_schema_get (s : Schema) (fields : list Field) :
  forall acc out,
    select_schema s fields acc = Success out ->
    forall k,
      PyDict.get out k =
      match last_yielding k fields with
      | Some f => type_of s f
      | None => PyDict.get acc k
      end.
Proof.
  induction fields as [|f rest IH]; simpl; intros acc out H k.
  - now injection H as <-.
  - destruct (selected f) eqn:Esel.
    + destruct (name f) as [n|] eqn:En; [|discriminate].
      destruct (PyDict.get s n) as [ty|] eqn:Eg; [|discriminate].
      rewrite (IH _ _ H k). destruct (last_yielding k rest); [reflexivity |].
      rewrite dict_get_set. unfold yields.
      rewrite Esel, (effective_name_key f n En). simpl.
      destruct (String.eqb (output_key f n) k); [| reflexivity].
      unfold type_of. now rewrite En, Eg.
    + rewrite (IH _ _ H k). destruct (last_yielding k rest); [reflexivity |].
      unfold yields. now rewrite Esel.
Qed.

Lemma select_schema_types (s : Schema) (fields : list Field) :
  forall acc out,
    select_schema s fields acc = Success out ->
    forall f, In f fields -> selected f = true -> type_of s f <> None.
Proof.
  induction fields as [|f0 rest IH]; simpl; intros acc out H f Hin Hsel.
  - contradiction.
  - destruct (selected f0) eqn:E0.
    + destruct (name f0) as [n|] eqn:En; [|discriminate].
      destruct (PyDict.get s n) as [ty|] eqn:Eg; [|discriminate].
      destruct Hin as [<-|Hin]; [| eauto].
      unfold type_of. rewrite En, Eg. discriminate.
    + destruct Hin as [<-|Hin]; [congruence | eauto].
Qed.

(** C1, amended: when a Select tool goes through, a column [k] is in the
    output schema exactly when some selected field has [k] as its output
    name, that name being the rename if it is present and not empty and the
    name otherwise; the column carries the input schema's type of the
    original name of the last selected field with that output name, hence of
    every selected field with that output name when they agree on the type;
    and every selected field's original name is a column of the input. *)
Theorem select_output_schema (s : Schema) (id : option string)
        (fields : list Field) (xml : string) (out : Schema) :
  output_schema_of (Select id fields xml) s = Success out ->
  (forall k, In k (PyDict.keys out) <->
             exists f, In f fields /\ selected f = true /\
                       effective_name f = Some k) /\
  (forall k, PyDict.get out k =
             match last_yielding k fields with
             | Some f => type_of s f
             | None => None
             end) /\
  (forall f, In f fields -> selected f = true ->
             (forall g, In g fields -> selected g = true ->
                        effective_name g = effective_name f ->
                        type_of s g = type_of s f) ->
             exists k, effective_name f = Some k /\
                       PyDict.get out k = type_of s f) /\
  (forall f, In f fields -> selected f = true -> type_of s f <> None) /\
  (forall f, effective_name f =
             match rename f with
             | Some r => if PyStr.is_empty r then name f else Some r
             | None => name f
             end).
Proof.
  simpl. intros H.
  pose proof (select_schema_get _ _ _ _ H) as Hget.
  pose proof (select_schema_types _ _ _ _ H) as Hty.
  split; [| split; [| split; [| split]]].
  - intros k. split.
    + rewrite dict_get_in_keys, Hget. intros Hk.
      destruct (last_yielding k fields) as [f|] eqn:El; [| now elim Hk].
      apply last_yielding_some in El as [Hin Hy].
      unfold yields in Hy. apply andb_prop in Hy as [Hs He].
      exists f. rewrite opt_eqb_eq in He. auto.
    + intros [f [Hin [Hs He]]]. rewrite dict_get_in_keys, Hget.
      destruct (last_yielding_exists k fields f Hin) as [g Hg].
      * unfold yields. rewrite Hs. now apply opt_eqb_eq.
      * rewrite Hg. apply last_yielding_some in Hg as [Hing Hy].
        unfold yields in Hy. apply andb_prop in Hy as [Hsg _]. now apply Hty.
  - intros k. exact (Hget k).
  - intros f Hin Hs Hsame.
    pose proof (Hty f Hin Hs) as Hf. unfold type_of in Hf.
    destruct (name f) as [n|] eqn:En; [| now elim Hf].
    exists (output_key f n). pose proof (effective_name_key f n En) as Hk.
    split; [exact Hk |]. rewrite Hget.
    destruct (last_yielding_exists (output_key f n) fields f Hin) as [g Hg].
    + unfold yields. rewrite Hs. now apply opt_eqb_eq.
    + rewrite Hg. apply last_yielding_some in Hg as [Hing Hy].
      unfold yields in Hy. apply andb_prop in Hy as [Hsg Heg].
      apply opt_eqb_eq in Heg. apply Hsame; congruence.
  - exact Hty.
  - intros f. unfold effective_name, truthy.
    destruct (rename f) as [r|]; [destruct (PyStr.is_empty r) |]; reflexivity.
Qed.

(** The projection example: [{A:STRING, B:FLOAT}] with [A] selected as [X]
    and [B] not selected gives exactly [{X:STRING}]. *)
Lemma select_output_schema_witness :
  output_schema_of (Select (Some "1") ab_fields "<Node/>") ab_schema =
  Success [("X", "STRING")] /\
  forall k, In k (PyDict.keys [("X", "STRING")]) <->
            exists f, In f ab_fields /\ selected f = true /\
                      effective_name f = Some k.
Proof.
  split; [reflexivity |].
  apply (proj1 (select_output_schema ab_schema (Some "1") ab_fields "<Node/>"
                  [("X", "STRING")] eq_refl)).
Defined.

(** C1 as worded fails twice. With an empty [Rename] the worded output name
    is the empty string, and the output schema has no such column: the
    column keeps the original name. With two selected fields renamed to the
    same column, the column carries the type of the second, not that of the
    first field's original name. *)
Lemma select_empty_rename_counterexample :
  (output_schema_of (Select (Some "1") [empty_rename_field] "<Node/>") ab_schema
   = Success [("A", "STRING")] /\
   selected empty_rename_field = true /\
   coalesce_name empty_rename_field = Some EmptyString /\
   PyDict.get [("A", "STRING")] EmptyString = None) /\
  (output_schema_of (Select (Some "1") clash_fields "<Node/>") ab_schema
   = Success [("X", "FLOAT")] /\
   In (mkField (Some "A") true (Some "X")) clash_fields /\
   coalesce_name (mkField (Some "A") true (Some "X")) = Some "X" /\
   type_of ab_schema (mkField (Some "A") true (Some "X")) = Some "STRING" /\
   PyDict.get [("X", "FLOAT")] "X" <> Some "STRING").
Proof.
  split; [repeat split |].
  repeat split; try (simpl; auto; fail). discriminate.
Qed.

(** ** Fields as parsed *)

(** C9, amended: a parsed field is selected exactly when its [Selected]
    attribute is the text [True], so a field without the attribute is not
    selected; its output name is the [Rename] attribute if that is present
    and not empty, and the [Name] attribute otherwise. *)
Theorem parse_field_defaults (field : ET.Element) :
  (selected (parse_field field) = true <-> ET.get field "Selected" = Some "True") /\
  (ET.get field "Selected" = None -> selected (parse_field field) = false) /\
  effective_name (parse_field field) =
  match ET.get field "Rename" with
  | Some r => if PyStr.is_empty r then ET.get field "Name" else Some r
  | None => ET.get field "Name"
  end.
Proof.
  unfold parse_field, effective_name, truthy. simpl. repeat split.
  - apply opt_eqb_eq.
  - apply opt_eqb_eq.
  - intros ->. reflexivity.
  - destruct (ET.get field "Rename") as [r|]; [destruct (PyStr.is_empty r) |];
      reflexivity.
Qed.

(** A field element without the flag, renamed [X]. *)
Lemma parse_field_defaults_witness :
  ET.get unflagged_element "Selected" = None /\
  selected (parse_field unflagged_element) = false /\
  effective_name (parse_field unflagged_element) = Some "X".
Proof.
  split; [reflexivity |]. split.
  - apply (proj1 (proj2 (parse_field_defaults unflagged_element))). reflexivity.
  - rewrite (proj2 (proj2 (parse_field_defaults unflagged_element))). reflexivity.
Defined.

(** C9 as worded fails: the [Rename] attribute is present (and empty), yet
    the output name is the original name, not the rename. *)
Lemma parse_field_empty_rename_counterexample :
  rename (parse_field empty_rename_element) = Some EmptyString /\
  coalesce_name (parse_field empty_rename_element) = Some EmptyString /\
  effective_name (parse_field empty_rename_element) = Some "A".
Proof. repeat split. Qed.

(** ** One tool, one iteration *)

Section Run.

Variable json_dumps : Schema -> string.
Variable ModelState : Type.
Variable generate_content : ModelState -> string -> Reply * ModelState.

(** The step text appended for [tool]. *)
Lemma step_header (tool : Tool) (next_cte snippet cols cte : string) :
  exists rest,
    match tool with
    | Select _ _ _ => select_step next_cte snippet cte
    | Filter _ _ _ => filter_step next_cte cols cte snippet
    end = "WITH " ++ next_cte ++ " AS (" ++ rest.
Proof.
  destruct tool; eexists; reflexivity.
Qed.

(** A [return] out of the retry loop carries the retries message. *)
Lemma backoff_loop_returned globals (fuel : nat) :
  forall retries prompt (w w' : World ModelState) r,
    backoff_loop generate_content globals fuel retries prompt w = (Returned r, w') ->
    r = Failure ErrModelRetries.
Proof.
  induction fuel as [|fuel IH]; intros retries prompt w w' r; simpl.
  - unfold return_. congruence.
  - destruct (retries <? max_retries)%nat; [| unfold return_; congruence].
    unfold bind, call_model.
    destruct (generate_content (model w) prompt) as [[text|] m']; simpl.
    + discriminate.
    + unfold time_sleep, load_global, bind.
      destruct (existsb (String.eqb "time") globals); simpl; [| discriminate].
      apply IH.
Qed.

(** What an iteration that ends normally has done. *)
Lemma loop_body_normal globals (i : nat) (tool : Tool) (st st' : LoopState)
      (w w' : World ModelState) :
  loop_body json_dumps generate_content globals i tool st w = (Normal st', w') ->
  exists out text,
    output_schema_of tool (current_schema st) = Success out /\
    backoff_loop generate_content globals max_retries 0
      (tool_prompt tool (current_cte st) (json_dumps (current_schema st))) w
    = (Normal text, w') /\
    current_cte st' = "cte_" ++ PyStr.of_nat (i + 1) /\
    current_schema st' = out /\
    exists step,
      sql_steps st' = (sql_steps st ++ [step])%list /\
      exists rest, step = "WITH " ++ "cte_" ++ PyStr.of_nat (i + 1) ++ " AS (" ++ rest.
Proof.
  unfold loop_body. intros H.
  destruct (output_schema_of tool (current_schema st)) as [out|e] eqn:Eo.
  - rewrite (bind_normal _ _ _ w w out) in H by reflexivity.
    destruct (backoff_loop generate_content globals max_retries 0 _ w)
      as [[text|e|r] w1] eqn:Eb.
    + rewrite (bind_normal _ _ _ _ _ _ Eb) in H. unfold ret in H.
      injection H as <- <-. exists out, text. simpl.
      repeat split. eexists. split; [reflexivity |]. apply step_header.
    + rewrite (bind_raised _ _ _ _ _ _ Eb) in H. discriminate.
    + rewrite (bind_returned _ _ _ _ _ _ Eb) in H. discriminate.
  - rewrite (bind_raised _ _ _ w w e) in H by reflexivity. discriminate.
Qed.

Lemma loop_body_returned globals (i : nat) (tool : Tool) (st : LoopState)
      (w w' : World ModelState) r :
  loop_body json_dumps generate_content globals i tool st w = (Returned r, w') ->
  r = Failure ErrModelRetries.
Proof.
  unfold loop_body. intros H.
  destruct (output_schema_of tool (current_schema st)) as [out|e] eqn:Eo.
  - rewrite (bind_normal _ _ _ w w out) in H by reflexivity.
    destruct (backoff_loop generate_content globals max_retries 0
                (tool_prompt tool (current_cte st)
                             (json_dumps (current_schema st))) w)
      as [[text|e|r'] w1] eqn:Eb.
    + rewrite (bind_normal _ _ _ _ _ _ Eb) in H. discriminate.
    + rewrite (bind_raised _ _ _ _ _ _ Eb) in H. discriminate.
    + rewrite (bind_returned _ _ _ _ _ _ Eb) in H. injection H as <- <-.
      eapply backoff_loop_returned, Eb.
  - rewrite (bind_raised _ _ _ w w e) in H by reflexivity. discriminate.
Qed.

(** ** The whole loop *)

Lemma for_tools_returned globals (tools : list Tool) :
  forall i st (w w' : World ModelState) r,
    for_tools json_dumps generate_content globals i tools st w = (Returned r, w') ->
    r = Failure ErrModelRetries.
Proof.
  induction tools as [|t ts IH]; intros i st w w' r; simpl.
  - unfold ret. discriminate.
  - destruct (loop_body json_dumps generate_content globals i t st w)
      as [[st1|e|r1] w1] eqn:Eb; intros H.
    + rewrite (bind_normal _ _ _ _ _ _ Eb) in H. eapply IH, H.
    + rewrite (bind_raised _ _ _ _ _ _ Eb) in H. discriminate.
    + rewrite (bind_returned _ _ _ _ _ _ Eb) in H. injection H as <- <-.
      eapply loop_body_returned, Eb.
Qed.

(** After a normal end of the loop: the schema is the propagated one, one
    step was appended per tool, and the last step defines the CTE that is
    current. *)
Lemma for_tools_normal globals (tools : list Tool) :
  forall i st st' (w w' : World ModelState),
    for_tools json_dumps generate_content globals i tools st w = (Normal st', w') ->
    propagate tools (current_schema st) = Success (current_schema st') /\
    length (sql_steps st') = length (sql_steps st) + length tools /\
    match tools with
    | [] => st' = st
    | _ :: _ =>
        current_cte st' = "cte_" ++ PyStr.of_nat (i + length tools) /\
        exists rest,
          last (sql_steps st') EmptyString =
          "WITH " ++ "cte_" ++ PyStr.of_nat (i + length tools) ++ " AS (" ++ rest
    end.
Proof.
  induction tools as [|t ts IH]; intros i st st' w w'.
  - simpl. unfold ret. intros H. injection H as <- <-.
    repeat split. lia.
  - cbn [for_tools propagate length].
    destruct (loop_body json_dumps generate_content globals i t st w)
      as [[st1|e|r1] w1] eqn:Eb; intros H.
    + rewrite (bind_normal _ _ _ _ _ _ Eb) in H.
      apply loop_body_normal in Eb
        as [out [text [Ho [_ [Hc [Hs [step [Hst [rest Hr]]]]]]]]].
      apply IH in H as [Hp [Hl Hlast]].
      rewrite Ho. unfold PyDict.copy. rewrite <- Hs. split; [exact Hp |].
      split; [rewrite Hl, Hst, length_app; simpl; lia |].
      destruct ts as [|t' ts'].
      * subst st'. simpl length. split; [exact Hc |].
        exists rest. now rewrite Hst, last_last.
      * destruct Hlast as [Hc' [rest' Hr']]. cbn [length] in *.
        replace (i + S (S (length ts'))) with (S i + S (length ts')) by lia.
        split; [exact Hc' | now exists rest'].
    + rewrite (bind_raised _ _ _ _ _ _ Eb) in H. discriminate.
    + rewrite (bind_returned _ _ _ _ _ _ Eb) in H. discriminate.
Qed.


(** ** Keys stay distinct *)

Lemma dict_keys_set {V : Type} (d : PyDict.dict V) (k k' : string) (v : V) :
  In k' (PyDict.keys (PyDict.set d k v)) <-> k' = k \/ In k' (PyDict.keys d).
Proof.
  induction d as [|[k0 v0] d IH]; simpl.
  - intuition.
  - destruct (String.eqb k0 k) eqn:E; simpl.
    + apply String.eqb_eq in E. subst. intuition.
    + rewrite IH. intuition.
Qed.

Lemma dict_set_nodup {V : Type} (d : PyDict.dict V) (k : string) (v : V) :
  NoDup (PyDict.keys d) -> NoDup (PyDict.keys (PyDict.set d k v)).
Proof.
  induction d as [|[k0 v0] d IH]; simpl; intros Hd.
  - constructor; [simpl; tauto | constructor].
  - destruct (String.eqb k0 k) eqn:E; simpl.
    + exact Hd.
    + inversion Hd as [|? ? Hnotin Hd']; subst.
      constructor; [| now apply IH].
      fold (PyDict.keys (PyDict.set d k v)). rewrite dict_keys_set.
      apply String.eqb_neq in E. intros [->|Hin]; [congruence | contradiction].
Qed.

Lemma select_schema_nodup (s : Schema) (fields : list Field) :
  forall acc out,
    NoDup (PyDict.keys acc) ->
    select_schema s fields acc = Success out ->
    NoDup (PyDict.keys out).
Proof.
  induction fields as [|f rest IH]; simpl; intros acc out Hacc H.
  - now injection H as <-.
  - destruct (selected f); [| eauto].
    destruct (name f) as [n|]; [| discriminate].
    destruct (PyDict.get s n) as [ty|]; [| discriminate].
    eapply IH; [| exact H]. now apply dict_set_nodup.
Qed.

Lemma propagate_nodup (tools : list Tool) :
  forall s s',
    NoDup (PyDict.keys s) ->
    propagate tools s = Success s' ->
    NoDup (PyDict.keys s').
Proof.
  induction tools as [|t ts IH]; simpl; intros s s' Hs H.
  - now injection H as <-.
  - destruct (output_schema_of t s) as [out|e] eqn:Eo; [| discriminate].
    eapply IH; [| exact H]. unfold PyDict.copy.
    destruct t; simpl in Eo.
    + eapply select_schema_nodup; [| exact Eo]. constructor.
    + now injection Eo as <-.
Qed.

Lemma initial_schema_nodup : NoDup (PyDict.keys initial_schema).
Proof.
  repeat constructor; simpl; intuition discriminate.
Qed.

(** ** The assembled query *)

(** C5: when a compilation succeeds, the query ends with a SELECT whose
    column list is the keys of the final propagated schema, in the order of
    the schema and each once, and that reads from the CTE defined by the
    last generated step, [cte_n] for [n] tools. *)
Theorem final_select_matches_schema (tools : list Tool)
        (w w' : World ModelState) (q : string) :
  generate_sql_from_tools json_dumps generate_content tools w = (Success q, w') ->
  exists final_schema steps first others,
    tools = first :: others /\
    propagate tools initial_schema = Success final_schema /\
    NoDup (PyDict.keys final_schema) /\
    length steps = length tools /\
    (exists rest,
        last steps EmptyString =
        "WITH " ++ "cte_" ++ PyStr.of_nat (length tools) ++ " AS (" ++ rest) /\
    q = "CREATE OR REPLACE VIEW `your_project.your_dataset.your_view_name` AS"
        ++ PyStr.nl ++
        PyStr.replace ("FROM " ++ format_id (tool_id first)) source_table
          (PyStr.join (PyStr.nl ++ PyStr.nl) steps)
        ++ PyStr.nl ++ PyStr.nl ++
        "SELECT" ++ PyStr.nl ++
        "    " ++ PyStr.join ", " (PyDict.keys final_schema) ++ PyStr.nl ++
        "FROM" ++ PyStr.nl ++
        "    " ++ ("cte_" ++ PyStr.of_nat (length tools)) ++ ";".
Proof.
  unfold generate_sql_from_tools, generate_sql_with, generate_sql_body.
  destruct (for_tools json_dumps generate_content module_globals 0 tools
              {| current_cte := initial_cte; current_schema := initial_schema;
                 sql_steps := [] |} w) as [[st|e|r] w1] eqn:Ef.
  - rewrite (bind_normal _ _ _ _ _ _ Ef).
    apply for_tools_normal in Ef as [Hp [Hl Hlast]]. simpl in Hp, Hl.
    unfold assemble.
    destruct (sql_steps st) as [|s0 ss] eqn:Es; [unfold return_; congruence |].
    destruct tools as [|first others]; [unfold raise; congruence |].
    unfold ret. intros H. injection H as <- <-.
    destruct Hlast as [Hc Hr]. simpl plus in Hc, Hr.
    exists (current_schema st), (s0 :: ss), first, others.
    repeat split; try assumption.
    + eapply propagate_nodup; [apply initial_schema_nodup | exact Hp].
    + unfold final_query_text. rewrite Hc. reflexivity.
  - rewrite (bind_raised _ _ _ _ _ _ Ef). congruence.
  - rewrite (bind_returned _ _ _ _ _ _ Ef).
    apply for_tools_returned in Ef. subst r. congruence.
Qed.

(** ** Filter *)

(** C6: a Filter tool's output schema is its input schema, whatever that
    schema is; an iteration on a Filter tool that goes through leaves
    [current_schema] as it was, with the same columns, in the same order,
    with the same types. *)
Theorem filter_keeps_schema globals (i : nat) (id expression : option string)
        (xml : string) (st st' : LoopState) (w w' : World ModelState) :
  loop_body json_dumps generate_content globals i (Filter id expression xml) st w
  = (Normal st', w') ->
  (forall s, output_schema_of (Filter id expression xml) s = Success s) /\
  current_schema st' = current_schema st.
Proof.
  intros H. split; [reflexivity |].
  apply loop_body_normal in H as [out [text [Ho [_ [_ [Hs _]]]]]].
  simpl in Ho. unfold PyDict.copy in Ho. congruence.
Qed.

(** ** No tools *)

(** C8: with no tools the function returns the no-steps message and no
    query, without calling the model. *)
Theorem empty_pipeline_fails (w : World ModelState) :
  generate_sql_from_tools json_dumps generate_content [] w
  = (Failure ErrNoSteps, w).
Proof. reflexivity. Qed.

(** ** A column that is not there *)

Lemma select_schema_missing (s : Schema) (fields : list Field) :
  forall acc,
    (exists f, In f fields /\ selected f = true /\ type_of s f = None) ->
    exists g, In g fields /\ selected g = true /\ type_of s g = None /\
              select_schema s fields acc = Failure (KeyError (name g)).
Proof.
  induction fields as [|f0 rest IH]; intros acc [f [Hin [Hsel Hty]]].
  - contradiction.
  - simpl. destruct (selected f0) eqn:E0.
    + destruct (name f0) as [n|] eqn:En.
      * destruct (PyDict.get s n) as [ty|] eqn:Eg.
        -- destruct Hin as [->|Hin].
           ++ unfold type_of in Hty. rewrite En, Eg in Hty. discriminate.
           ++ destruct (IH (PyDict.set acc (output_key f0 n) ty)) as [g Hg];
                [now exists f |].
              exists g. intuition.
        -- exists f0. unfold type_of. rewrite En, Eg. auto.
      * exists f0. unfold type_of. rewrite En. auto.
    + destruct Hin as [->|Hin]; [congruence |].
      destruct (IH acc) as [g Hg]; [now exists f |].
      exists g. intuition.
Qed.

(** C7: when the loop reaches a Select tool one of whose selected fields
    names a column that the current schema does not have, the function
    returns no query but the error message carrying the [KeyError] of such
    a field, and the model is not called for this tool or any later one. *)
Theorem unknown_column_fails (before after : list Tool) (id : option string)
        (fields : list Field) (xml : string) (st1 : LoopState)
        (w w1 : World ModelState) :
  for_tools json_dumps generate_content module_globals 0 before
    (mkLoop initial_cte initial_schema []) w = (Normal st1, w1) ->
  (exists f, In f fields /\ selected f = true /\
             type_of (current_schema st1) f = None) ->
  exists g,
    In g fields /\ selected g = true /\ type_of (current_schema st1) g = None /\
    generate_sql_from_tools json_dumps generate_content
      (before ++ Select id fields xml :: after)%list w
    = (Failure (ErrGeneration (KeyError (name g))), w1).
Proof.
  intros Hb Hf.
  destruct (select_schema_missing _ _ [] Hf) as [g [Hin [Hsel [Hty Hfail]]]].
  exists g. repeat split; try assumption.
  unfold generate_sql_from_tools, generate_sql_with, generate_sql_body.
  rewrite (bind_raised _ _ _ w w1 (KeyError (name g))); [reflexivity |].
  rewrite for_tools_app, (bind_normal _ _ _ _ _ _ Hb).
  cbn [for_tools]. apply bind_raised. unfold loop_body.
  apply bind_raised. simpl. now rewrite Hfail.
Qed.

(** ** Effects only accumulate *)

Lemma bind_only_appends {A B : Type} (m : M ModelState A) (k : A -> M ModelState B) :
  only_appends m -> (forall a, only_appends (k a)) -> only_appends (bind m k).
Proof.
  intros Hm Hk w. unfold bind. destruct (Hm w) as [evs1 H1].
  destruct (m w) as [[a|e|r] w1]; simpl in H1; try (now exists evs1).
  destruct (Hk a w1) as [evs2 H2]. exists (evs1 ++ evs2)%list.
  now rewrite H2, H1, app_assoc.
Qed.

Lemma bind_begins_with {A B : Type} (ev : Event) (m : M ModelState A)
      (k : A -> M ModelState B) :
  begins_with ev m -> (forall a, only_appends (k a)) -> begins_with ev (bind m k).
Proof.
  intros Hm Hk w. unfold bind. destruct (Hm w) as [evs1 H1].
  destruct (m w) as [[a|e|r] w1]; simpl in H1; try (now exists evs1).
  destruct (Hk a w1) as [evs2 H2]. exists (evs1 ++ evs2)%list.
  now rewrite H2, H1, <- app_assoc.
Qed.

Lemma pure_only_appends {A : Type} (o : Outcome A) :
  only_appends (fun w : World ModelState => (o, w)).
Proof. intros w. exists []. simpl. now rewrite app_nil_r. Qed.

Lemma emit_only_appends (ev : Event) : only_appends (@emit ModelState ev).
Proof. intros w. now exists [ev]. Qed.

Lemma call_model_begins (prompt : string) :
  begins_with (EvGenerate prompt) (call_model generate_content prompt).
Proof.
  intros w. unfold call_model.
  destruct (generate_content (model w) prompt) as [reply m']. now exists [].
Qed.

Lemma begins_only_appends {A : Type} (ev : Event) (m : M ModelState A) :
  begins_with ev m -> only_appends m.
Proof. intros H w. destruct (H w) as [evs E]. now exists (ev :: evs). Qed.

Lemma time_sleep_only_appends globals (delay : nat) :
  only_appends (@time_sleep ModelState globals delay).
Proof.
  unfold time_sleep. apply bind_only_appends.
  - unfold load_global. destruct (existsb _ globals); apply pure_only_appends.
  - intros _. apply emit_only_appends.
Qed.

Lemma backoff_loop_only_appends globals (fuel : nat) :
  forall retries prompt,
    only_appends (backoff_loop generate_content globals fuel retries prompt).
Proof.
  induction fuel as [|fuel IH]; intros retries prompt; simpl.
  - apply pure_only_appends.
  - destruct (retries <? max_retries)%nat; [| apply pure_only_appends].
    apply bind_only_appends.
    + eapply begins_only_appends, call_model_begins.
    + intros [text|]; [apply pure_only_appends |].
      apply bind_only_appends; [apply emit_only_appends | intros _].
      apply bind_only_appends; [apply time_sleep_only_appends | intros _].
      apply IH.
Qed.

Lemma backoff_loop_begins globals (fuel : nat) (prompt : string) :
  begins_with (EvGenerate prompt)
              (backoff_loop generate_content globals (S fuel) 0 prompt).
Proof.
  simpl. apply bind_begins_with; [apply call_model_begins |].
  intros [text|]; [apply pure_only_appends |].
  apply bind_only_appends; [apply emit_only_appends | intros _].
  apply bind_only_appends; [apply time_sleep_only_appends | intros _].
  apply backoff_loop_only_appends.
Qed.

Lemma loop_body_only_appends globals (i : nat) (tool : Tool) (st : LoopState) :
  only_appends (loop_body json_dumps generate_content globals i tool st).
Proof.
  unfold loop_body. apply bind_only_appends.
  - unfold lift. destruct (output_schema_of _ _); apply pure_only_appends.
  - intros out. apply bind_only_appends.
    + apply backoff_loop_only_appends.
    + intros text. apply pure_only_appends.
Qed.

Lemma for_tools_only_appends globals (tools : list Tool) :
  forall i st,
    only_appends (for_tools json_dumps generate_content globals i tools st).
Proof.
  induction tools as [|t ts IH]; intros i st; simpl.
  - apply pure_only_appends.
  - apply bind_only_appends; [apply loop_body_only_appends | intros st1; apply IH].
Qed.

Lemma assemble_only_appends (tools : list Tool) (st : LoopState) :
  only_appends (@assemble ModelState tools st).
Proof.
  unfold assemble. destruct (sql_steps st); [apply pure_only_appends |].
  destruct tools; apply pure_only_appends.
Qed.

(** ** Where every run starts *)

(** C10: the loop starts from the schema [{OrderID: STRING, CustomerName:
    STRING, ProductCategory: STRING, SalesAmount: FLOAT}] and the CTE name
    [initial_data] whatever the tools are: the output schema of the first
    tool is computed from that schema, and when it exists the first thing
    the run does is to call the model with the first tool's prompt written
    for [initial_data] and that schema. *)
Theorem initial_state_fixed (tool : Tool) (rest : list Tool) (out : Schema)
        (w : World ModelState) :
  output_schema_of tool
    [("OrderID", "STRING"); ("CustomerName", "STRING");
     ("ProductCategory", "STRING"); ("SalesAmount", "FLOAT")] = Success out ->
  initial_schema =
    [("OrderID", "STRING"); ("CustomerName", "STRING");
     ("ProductCategory", "STRING"); ("SalesAmount", "FLOAT")] /\
  initial_cte = "initial_data" /\
  exists evs,
    events (snd (generate_sql_from_tools json_dumps generate_content
                   (tool :: rest) w)) =
    (events w ++
     EvGenerate
       (tool_prompt tool "initial_data"
          (json_dumps
             [("OrderID", "STRING"); ("CustomerName", "STRING");
              ("ProductCategory", "STRING"); ("SalesAmount", "FLOAT")]))
     :: evs)%list.
Proof.
  intros Ho. split; [reflexivity |]. split; [reflexivity |].
  assert (Hb : begins_with
                 (EvGenerate (tool_prompt tool initial_cte (json_dumps initial_schema)))
                 (generate_sql_body json_dumps generate_content module_globals
                                    (tool :: rest))).
  { unfold generate_sql_body. apply bind_begins_with.
    - cbn [for_tools]. apply bind_begins_with.
      + unfold loop_body. intros w0.
        rewrite (bind_normal _ _ _ w0 w0 out)
          by (unfold lift; cbn [current_schema]; unfold initial_schema;
              now rewrite Ho).
        revert w0. apply bind_begins_with.
        * apply backoff_loop_begins.
        * intros text. apply pure_only_appends.
      + intros st1. apply for_tools_only_appends.
    - intros st. apply assemble_only_appends. }
  destruct (Hb w) as [evs Hevs]. exists evs.
  unfold generate_sql_from_tools, generate_sql_with.
  destruct (generate_sql_body _ _ _ _ w) as [[q|e|r] w1]; exact Hevs.
Qed.

End Run.

(** ** The retry loop *)

Section Retry.

Variable json_dumps : Schema -> string.
Variable ModelState : Type.
Variable generate_content : ModelState -> string -> Reply * ModelState.

(** The fuel the loop body passes is enough: more fuel changes nothing. *)
Lemma backoff_loop_fuel globals (prompt : string) (fuel : nat) :
  forall retries (w : World ModelState),
    max_retries - retries <= fuel ->
    backoff_loop generate_content globals fuel retries prompt w =
    backoff_loop generate_content globals (max_retries - retries) retries prompt w.
Proof.
  induction fuel as [|fuel IH]; intros retries w Hle.
  - now replace (max_retries - retries) with 0 by lia.
  - destruct (retries <? max_retries)%nat eqn:Elt.
    + apply Nat.ltb_lt in Elt.
      replace (max_retries - retries) with (S (max_retries - (retries + 1))) by lia.
      cbn [backoff_loop].
      replace (retries <? max_retries)%nat with true
        by (symmetry; now apply Nat.ltb_lt).
      apply bind_ext. intros [text|] w1; [reflexivity |].
      apply bind_ext. intros _ w2. apply bind_ext. intros _ w3.
      apply IH. lia.
    + apply Nat.ltb_ge in Elt.
      replace (max_retries - retries) with 0 by lia.
      cbn [backoff_loop]. replace (retries <? max_retries)%nat with false
        by (symmetry; now apply Nat.ltb_ge).
      reflexivity.
Qed.

(** In the module as it is, the first failed call ends the loop: the
    message is printed and [time.sleep] raises, [time] not being bound. *)
Lemma backoff_loop_unbound_time (fuel : nat) (prompt : string)
      (w : World ModelState) (m' : ModelState) :
  generate_content (model w) prompt = (Raises, m') ->
  backoff_loop generate_content module_globals (S fuel) 0 prompt w =
  (Raised (NameError "time"),
   mkWorld m' (events w ++ [EvGenerate prompt; EvPrint (retry_message 2)])%list).
Proof.
  intros H. cbn [backoff_loop]. change (0 <? max_retries)%nat with true.
  cbv iota. unfold bind at 1. unfold call_model. rewrite H.
  unfold bind, emit, time_sleep, load_global, raise. simpl.
  now rewrite <- app_assoc.
Qed.

(** Were [time] bound, a model failing on every call would be called
    [max_retries] times with waits of 2, 4, 8, 16 and 32 seconds, and the
    function would return the retries message. *)
Lemma backoff_loop_all_fail globals (prompt : string) :
  (forall m p, fst (generate_content m p) = Raises) ->
  existsb (String.eqb "time") globals = true ->
  forall fuel retries (w : World ModelState),
    fuel + retries = max_retries ->
    exists w' evs,
      backoff_loop generate_content globals fuel retries prompt w =
      (Returned (Failure ErrModelRetries), w') /\
      events w' = (events w ++ evs)%list /\
      calls evs = fuel /\
      sleeps evs = map (fun j => 2 ^ j) (seq (retries + 1) fuel).
Proof.
  intros Hfail Htime. induction fuel as [|fuel IH]; intros retries w Hsum.
  - exists w, []. simpl. rewrite app_nil_r. auto.
  - cbn [backoff_loop].
    replace (retries <? max_retries)%nat with true
      by (symmetry; apply Nat.ltb_lt; lia).
    unfold bind at 1. unfold call_model.
    pose proof (Hfail (model w) prompt) as Hf.
    destruct (generate_content (model w) prompt) as [reply m']. simpl in Hf.
    subst reply. unfold bind, emit, time_sleep, load_global, bind.
    rewrite Htime. simpl.
    match goal with
    | |- context [backoff_loop _ _ _ _ _ ?w0] =>
        destruct (IH (retries + 1) w0) as [w' [evs [Hrun [Hev [Hc Hs]]]]];
        [lia |]
    end.
    exists w',
      (EvGenerate prompt :: EvPrint (retry_message (2 ^ (retries + 1)))
       :: EvSleep (2 ^ (retries + 1)) :: evs).
    rewrite Hrun, Hev. simpl. rewrite <- !app_assoc. simpl.
    repeat split; [now rewrite Hc |].
    rewrite Hs. now replace (retries + 1 + 1) with (S (retries + 1)) by lia.
Qed.

Lemma backoff_loop_with_time globals (prompt : string) (w : World ModelState) :
  (forall m p, fst (generate_content m p) = Raises) ->
  existsb (String.eqb "time") globals = true ->
  exists w' evs,
    backoff_loop generate_content globals max_retries 0 prompt w =
    (Returned (Failure ErrModelRetries), w') /\
    events w' = (events w ++ evs)%list /\
    calls evs = 5 /\
    sleeps evs = [2; 4; 8; 16; 32].
Proof.
  intros Hfail Htime.
  destruct (backoff_loop_all_fail globals prompt Hfail Htime max_retries 0 w)
    as [w' [evs H]]; [reflexivity |].
  now exists w', evs.
Qed.

(** C3 does not hold of the code: when the first call of the model for the
    first tool raises, the function makes that one call, prints the retry
    message, waits for nothing and returns the generation-error message
    with the [NameError] of [time], not the retries message. *)
Theorem first_failure_ends_run (tool : Tool) (rest : list Tool) (out : Schema)
        (w : World ModelState) (m' : ModelState) :
  output_schema_of tool initial_schema = Success out ->
  generate_content (model w)
    (tool_prompt tool initial_cte (json_dumps initial_schema)) = (Raises, m') ->
  generate_sql_from_tools json_dumps generate_content (tool :: rest) w =
  (Failure (ErrGeneration (NameError "time")),
   mkWorld m'
     (events w ++
      [EvGenerate (tool_prompt tool initial_cte (json_dumps initial_schema));
       EvPrint "API call failed, retrying in 2s..."])%list).
Proof.
  intros Ho Hm.
  unfold generate_sql_from_tools, generate_sql_with, generate_sql_body.
  erewrite bind_raised; [reflexivity |].
  cbn [for_tools]. apply bind_raised. unfold loop_body.
  erewrite bind_normal by (unfold lift; cbn [current_schema]; now rewrite Ho).
  apply bind_raised. cbn [current_cte current_schema].
  now apply backoff_loop_unbound_time.
Qed.

End Retry.

(** ** The sample workflow *)

Example demo_compiles :
  fst (generate_sql_from_tools sample_dumps (scripted_model demo_answers)
         demo_tools fresh_world) = Success demo_query.
Proof. vm_compute. reflexivity. Qed.

(** With a model that raises on every call, the sample workflow ends at the
    first call. *)
Lemma first_failure_ends_run_witness :
  output_schema_of (hd region_tool demo_tools) initial_schema =
  Success [("transaction_id", "STRING"); ("CustomerName", "STRING");
           ("total_sales", "FLOAT")] /\
  generate_sql_from_tools sample_dumps (scripted_model []) demo_tools fresh_world =
  (Failure (ErrGeneration (NameError "time")),
   mkWorld 1
     [EvGenerate (tool_prompt (hd region_tool demo_tools) initial_cte
                              (sample_dumps initial_schema));
      EvPrint "API call failed, retrying in 2s..."]).
Proof.
  split; [reflexivity |].
  apply (first_failure_ends_run sample_dumps nat (scripted_model [])
           (hd region_tool demo_tools) (tl demo_tools)
           [("transaction_id", "STRING"); ("CustomerName", "STRING");
            ("total_sales", "FLOAT")] fresh_world 1);
    reflexivity.
Defined.

(** C4 does not hold of the code: in the query compiled for the sample
    workflow the first CTE still reads from [initial_data] and the source
    table appears nowhere; the text that is replaced is [FROM] followed by
    the first tool's id, and [initial_data] is not an id the parser lets
    through. *)
Theorem placeholder_not_rewritten (json_dumps : Schema -> string) :
  fst (generate_sql_from_tools json_dumps (scripted_model demo_answers)
         demo_tools fresh_world) = Success demo_query /\
  PyStr.contains ("FROM " ++ initial_cte) demo_query = true /\
  PyStr.contains source_table demo_query = false /\
  PyStr.to_int initial_cte = None.
Proof. repeat split; vm_compute; reflexivity. Qed.

Lemma final_select_matches_schema_witness :
  exists w',
    generate_sql_from_tools sample_dumps (scripted_model demo_answers)
      demo_tools fresh_world = (Success demo_query, w') /\
    exists final_schema,
      propagate demo_tools initial_schema = Success final_schema /\
      NoDup (PyDict.keys final_schema).
Proof.
  eexists.
  refine ((fun H => conj H _) _); [| vm_compute; reflexivity].
  destruct (final_select_matches_schema sample_dumps nat
              (scripted_model demo_answers) demo_tools fresh_world _ demo_query H)
    as [final_schema [steps [first [others [_ [Hp [Hn _]]]]]]].
  exists final_schema. split; assumption.
Defined.

Lemma filter_keeps_schema_witness :
  exists st' w',
    loop_body sample_dumps (scripted_model ["WHERE SalesAmount > 1000"])
      module_globals 0 (Filter (Some "1") (Some "[SalesAmount] > 1000") "<Node/>")
      (mkLoop initial_cte initial_schema []) fresh_world = (Normal st', w') /\
    current_schema st' = initial_schema.
Proof.
  eexists. eexists.
  refine ((fun H => conj H (proj2 (filter_keeps_schema sample_dumps nat
             (scripted_model ["WHERE SalesAmount > 1000"]) module_globals 0
             (Some "1") (Some "[SalesAmount] > 1000") "<Node/>"
             (mkLoop initial_cte initial_schema []) _ fresh_world _ H))) _).
  vm_compute. reflexivity.
Defined.

Lemma unknown_column_fails_witness :
  for_tools sample_dumps (scripted_model demo_answers) module_globals 0 []
    (mkLoop initial_cte initial_schema []) fresh_world
  = (Normal (mkLoop initial_cte initial_schema []), fresh_world) /\
  exists g,
    In g [mkField (Some "Region") true None] /\ selected g = true /\
    type_of initial_schema g = None /\
    generate_sql_from_tools sample_dumps (scripted_model demo_answers)
      ([] ++ Select (Some "1") [mkField (Some "Region") true None]
                    "<Node ToolID='1'/>" :: tl demo_tools)%list fresh_world
    = (Failure (ErrGeneration (KeyError (name g))), fresh_world).
Proof.
  split; [reflexivity |].
  apply (unknown_column_fails sample_dumps nat (scripted_model demo_answers)
           [] (tl demo_tools) (Some "1") [mkField (Some "Region") true None]
           "<Node ToolID='1'/>" (mkLoop initial_cte initial_schema [])
           fresh_world fresh_world eq_refl).
  exists (mkField (Some "Region") true None). simpl. auto.
Defined.

Lemma initial_state_fixed_witness :
  output_schema_of (hd region_tool demo_tools)
    [("OrderID", "STRING"); ("CustomerName", "STRING");
     ("ProductCategory", "STRING"); ("SalesAmount", "FLOAT")]
  = Success [("transaction_id", "STRING"); ("CustomerName", "STRING");
             ("total_sales", "FLOAT")] /\
  exists evs,
    events (snd (generate_sql_from_tools sample_dumps
                   (scripted_model demo_answers) demo_tools fresh_world)) =
    (events fresh_world ++
     EvGenerate
       (tool_prompt (hd region_tool demo_tools) "initial_data"
          (sample_dumps
             [("OrderID", "STRING"); ("CustomerName", "STRING");
              ("ProductCategory", "STRING"); ("SalesAmount", "FLOAT")]))
     :: evs)%list.
Proof.
  split; [reflexivity |].
  apply (proj2 (proj2 (initial_state_fixed sample_dumps nat
                         (scripted_model demo_answers)
                         (hd region_tool demo_tools) (tl demo_tools)
                         [("transaction_id", "STRING"); ("CustomerName", "STRING");
                          ("total_sales", "FLOAT")]
                         fresh_world eq_refl))).
Defined.

(** * Further properties *)

(** ** The parser: which nodes become tools, and when it fails *)

Lemma sort_decorated_fixed {A : Type} (l : list (Z * A)) :
  Sorted key_le l -> PyList.sort_decorated l = l.
Proof.
  induction 1 as [|x l Hs IH Hhd]; [reflexivity |].
  cbn [PyList.sort_decorated fold_right]. fold (PyList.sort_decorated l).
  rewrite IH. destruct Hhd as [|y l' Hxy]; [reflexivity |].
  cbn [PyList.insert]. unfold key_le in Hxy.
  apply Z.leb_le in Hxy. now rewrite Hxy.
Qed.

Lemma decorate_of_decorated (kts : list (Z * Tool)) :
  Forall (fun kt => int_of_id (snd kt) = Success (fst kt)) kts ->
  decorate (map snd kts) = Success kts.
Proof.
  induction 1 as [|[k t] l Hk _ IH]; [reflexivity |].
  simpl in *. now rewrite Hk, IH.
Qed.




Lemma filter_key_map_snd (k : Z) (kts : list (Z * Tool)) :
  Forall (fun kt => int_of_id (snd kt) = Success (fst kt)) kts ->
  filter (fun t => Z.eqb (key_of t) k) (map snd kts) =
  map snd (filter (fun y => Z.eqb (fst y) k) kts).
Proof.
  induction 1 as [|[k0 t] l Hk _ IH]; [reflexivity |].
  simpl in *. unfold key_of at 1. rewrite Hk, IH.
  now destruct (Z.eqb k0 k).
Qed.

Section ParserFacts.

Variable ET_fromstring : string -> option ET.Element.
Variable ET_tostring : ET.Element -> string.

Lemma parse_node_supported (node : ET.Element) :
  supported node = true ->
  exists t, parse_node ET_tostring node = Some t.
Proof.
  unfold supported, parse_node. intros H.
  destruct (opt_eqb (ET.get node "Type") (Some "Select")); [now eexists |].
  simpl in H. rewrite H. now eexists.
Qed.

Lemma parse_node_unsupported (node : ET.Element) :
  supported node = false -> parse_node ET_tostring node = None.
Proof.
  unfold supported, parse_node. intros H.
  apply orb_false_elim in H as [-> ->]. reflexivity.
Qed.

Lemma extract_tools_filter (nodes : list ET.Element) :
  extract_tools ET_tostring nodes =
  extract_tools ET_tostring (filter supported nodes) /\
  length (extract_tools ET_tostring nodes) = length (filter supported nodes) /\
  forall t, In t (extract_tools ET_tostring nodes) ->
            exists node, In node nodes /\ supported node = true /\
                         parse_node ET_tostring node = Some t.
Proof.
  induction nodes as [|node rest [IH1 [IH2 IH3]]]; simpl.
  - repeat split. contradiction.
  - destruct (supported node) eqn:Es.
    + destruct (parse_node_supported node Es) as [t Ht]. simpl. rewrite Ht.
      repeat split; [now rewrite IH1 | simpl; now rewrite IH2 |].
      intros t' [<-|Hin]; [now exists node; auto |].
      destruct (IH3 t' Hin) as [n [Hn Hs]]. exists n. auto.
    + rewrite (parse_node_unsupported node Es).
      repeat split; try assumption.
      intros t' Hin. destruct (IH3 t' Hin) as [n [Hn Hs]]. exists n. auto.
Qed.

(** X1: the parser makes one tool of every [Node] whose [Type] is [Select]
    or [Filter] and nothing of the others: a parsed workflow has as many
    tools as the document has such nodes, each tool is the one made of
    such a node, and the nodes of other types do not change the result. *)
Theorem parse_ignores_other_nodes (xml_string : string) (tools : list Tool) :
  parse_alteryx_xml ET_fromstring ET_tostring xml_string = Success tools ->
  exists root,
    ET_fromstring xml_string = Some root /\
    length tools = length (filter supported (ET.findall_descendants root "Node")) /\
    (forall t, In t tools ->
               exists node, In node (ET.findall_descendants root "Node") /\
                            supported node = true /\
                            parse_node ET_tostring node = Some t) /\
    sort_tools (extract_tools ET_tostring
                  (filter supported (ET.findall_descendants root "Node")))
    = Success tools.
Proof.
  unfold parse_alteryx_xml. intros H.
  destruct (ET_fromstring xml_string) as [root|]; [| discriminate].
  destruct (sort_tools _) as [sorted|e] eqn:Es; [| discriminate].
  injection H as <-. exists root.
  destruct (extract_tools_filter (ET.findall_descendants root "Node"))
    as [H1 [H2 H3]].
  pose proof (sort_tools_spec _ _ Es) as [Hp _].
  repeat split.
  - rewrite <- H2. symmetry. now apply Permutation_length.
  - intros t Hin. apply H3. eapply Permutation_in; [| exact Hin].
    now apply Permutation_sym.
  - now rewrite <- H1.
Qed.



(** X4: tools whose ids have the same integer value stay in the order of
    the document. *)
Theorem parse_keeps_order_of_equal_ids (xml_string : string) (root : ET.Element)
        (tools : list Tool) (k : Z) :
  ET_fromstring xml_string = Some root ->
  parse_alteryx_xml ET_fromstring ET_tostring xml_string = Success tools ->
  filter (fun t => Z.eqb (key_of t) k) tools =
  filter (fun t => Z.eqb (key_of t) k)
         (extract_tools ET_tostring (ET.findall_descendants root "Node")).
Proof.
  intros Hr. unfold parse_alteryx_xml, sort_tools. rewrite Hr.
  destruct (decorate _) as [kts|e] eqn:Ed; [| discriminate].
  intros H. injection H as <-.
  apply decorate_spec in Ed as [Hm Hf]. rewrite <- Hm.
  rewrite !filter_key_map_snd; [now rewrite sort_decorated_stable | exact Hf |].
  rewrite Forall_forall in *. intros kt Hin. apply Hf.
  eapply Permutation_in; [apply sort_decorated_perm | exact Hin].
Qed.

End ParserFacts.

(** X5: sorting a list that [tools.sort] has produced gives it back. *)
Theorem sort_tools_twice (tools sorted : list Tool) :
  sort_tools tools = Success sorted -> sort_tools sorted = Success sorted.
Proof.
  unfold sort_tools. destruct (decorate tools) as [kts|e] eqn:Ed; [| discriminate].
  intros H. injection H as <-.
  apply decorate_spec in Ed as [_ Hf].
  rewrite decorate_of_decorated.
  - now rewrite sort_decorated_fixed by apply sort_decorated_sorted.
  - rewrite Forall_forall in *. intros kt Hin. apply Hf.
    eapply Permutation_in; [apply sort_decorated_perm | exact Hin].
Qed.

(** ** The schema of a Select tool: when it exists, and its column order *)

Lemma select_schema_total (s : Schema) (fields : list Field) :
  (forall f, In f fields -> selected f = true -> type_of s f <> None) ->
  forall acc, exists out, select_schema s fields acc = Success out.
Proof.
  induction fields as [|f rest IH]; intros Hall acc; simpl.
  - now exists acc.
  - destruct (selected f) eqn:Es.
    + pose proof (Hall f (or_introl eq_refl) Es) as Hf. unfold type_of in Hf.
      destruct (name f) as [n|]; [| now elim Hf].
      destruct (PyDict.get s n) as [ty|]; [| now elim Hf].
      apply IH. intros g Hg. apply Hall. now right.
    + apply IH. intros g Hg. apply Hall. now right.
Qed.

Lemma select_schema_failure (s : Schema) (fields : list Field) :
  forall acc e,
    select_schema s fields acc = Failure e ->
    exists g, In g fields /\ selected g = true /\
              type_of s g = None /\ e = KeyError (name g).
Proof.
  induction fields as [|f rest IH]; simpl; intros acc e H; [discriminate |].
  destruct (selected f) eqn:Es.
  - destruct (name f) as [n|] eqn:En.
    + destruct (PyDict.get s n) as [ty|] eqn:Eg.
      * destruct (IH _ _ H) as [g [Hin Hg]]. exists g. auto.
      * injection H as <-. exists f. unfold type_of. rewrite En, Eg. auto.
    + injection H as <-. exists f. unfold type_of. rewrite En. auto.
  - destruct (IH _ _ H) as [g [Hin Hg]]. exists g. auto.
Qed.

(** X6: a Select tool has an output schema exactly when the original name
    of every selected field is a column of the input schema; the fields
    that are not selected are never looked up. When it has none, the
    exception is the [KeyError] of a selected field's name. *)
Theorem select_succeeds_iff (s : Schema) (id : option string)
        (fields : list Field) (xml : string) :
  ((exists out, output_schema_of (Select id fields xml) s = Success out) <->
   (forall f, In f fields -> selected f = true -> type_of s f <> None)) /\
  (forall e, output_schema_of (Select id fields xml) s = Failure e ->
             exists g, In g fields /\ selected g = true /\
                       type_of s g = None /\ e = KeyError (name g)).
Proof.
  simpl. split; [split |].
  - intros [out H]. eapply select_schema_types, H.
  - intros Hall. now apply select_schema_total.
  - intros e He. eapply select_schema_failure, He.
Qed.

Lemma dict_keys_set_order {V : Type} (d : PyDict.dict V) (k : string) (v : V) :
  PyDict.keys (PyDict.set d k v) =
  if existsb (String.eqb k) (PyDict.keys d) then PyDict.keys d
  else (PyDict.keys d ++ [k])%list.
Proof.
  induction d as [|[k0 v0] d IH]; simpl; [reflexivity |].
  rewrite (String.eqb_sym k k0). destruct (String.eqb k0 k) eqn:E; simpl.
  - reflexivity.
  - fold (PyDict.keys (PyDict.set d k v)). fold (PyDict.keys d). rewrite IH.
    now destruct (existsb (String.eqb k) (PyDict.keys d)).
Qed.

Lemma select_schema_keys (s : Schema) (fields : list Field) :
  forall acc out,
    select_schema s fields acc = Success out ->
    PyDict.keys out =
    (PyDict.keys acc ++ first_occurrences (PyDict.keys acc) (output_names fields))%list.
Proof.
  induction fields as [|f rest IH]; simpl; intros acc out H.
  - injection H as <-. now rewrite app_nil_r.
  - destruct (selected f) eqn:Es; [| now apply IH].
    destruct (name f) as [n|] eqn:En; [| discriminate].
    destruct (PyDict.get s n) as [ty|] eqn:Eg; [| discriminate].
    rewrite (effective_name_key f n En). simpl.
    rewrite (IH _ _ H), dict_keys_set_order.
    destruct (existsb (String.eqb (output_key f n)) (PyDict.keys acc));
      [reflexivity |].
    now rewrite <- app_assoc.
Qed.

Lemma first_occurrences_nodup (l : list string) :
  forall seen,
    NoDup l -> (forall k, In k l -> ~ In k seen) ->
    first_occurrences seen l = l.
Proof.
  induction l as [|k rest IH]; intros seen Hn Hs; simpl; [reflexivity |].
  inversion Hn as [|? ? Hk Hn']; subst.
  destruct (existsb (String.eqb k) seen) eqn:Ex.
  - apply existsb_exists in Ex as [k' [Hin Heq]].
    apply String.eqb_eq in Heq. subst k'. elim (Hs k); simpl; auto.
  - f_equal. apply IH; [assumption |].
    intros k' Hin Hin'. apply in_app_or in Hin' as [Hin'|[<-|[]]].
    + apply (Hs k'); simpl; auto.
    + contradiction.
Qed.

(** X7: the columns of a Select tool's output schema come in the order of
    the selected fields, an output name that comes again keeping its first
    place; when the output names are distinct the columns are exactly the
    output names, in the order of the fields. *)
Theorem select_column_order (s : Schema) (id : option string)
        (fields : list Field) (xml : string) (out : Schema) :
  output_schema_of (Select id fields xml) s = Success out ->
  PyDict.keys out = first_occurrences [] (output_names fields) /\
  (NoDup (output_names fields) -> PyDict.keys out = output_names fields).
Proof.
  simpl. intros H. apply select_schema_keys in H. simpl in H. split.
  - exact H.
  - intros Hn. rewrite H. apply first_occurrences_nodup; auto.
Qed.

(** ** Types along the pipeline *)

Lemma output_schema_types (tool : Tool) (s out : Schema) :
  output_schema_of tool s = Success out ->
  forall k ty, PyDict.get out k = Some ty ->
               exists k0, PyDict.get s k0 = Some ty.
Proof.
  destruct tool as [id fields xml | id expr xml]; simpl; intros H k ty Hk.
  - rewrite (select_schema_get _ _ _ _ H) in Hk.
    destruct (last_yielding k fields) as [f|]; [| discriminate].
    unfold type_of in Hk. destruct (name f) as [n|]; [| discriminate].
    now exists n.
  - injection H as <-. now exists k.
Qed.

Lemma propagate_types (tools : list Tool) :
  forall s s',
    propagate tools s = Success s' ->
    forall k ty, PyDict.get s' k = Some ty ->
                 exists k0, PyDict.get s k0 = Some ty.
Proof.
  induction tools as [|t ts IH]; simpl; intros s s' H k ty Hk.
  - injection H as <-. now exists k.
  - destruct (output_schema_of t s) as [out|e] eqn:Eo; [| discriminate].
    destruct (IH _ _ H k ty Hk) as [k1 Hk1].
    eapply output_schema_types; eassumption.
Qed.

Lemma propagate_filters (tools : list Tool) (s : Schema) :
  forallb is_filter tools = true -> propagate tools s = Success s.
Proof.
  induction tools as [|t ts IH]; simpl; [reflexivity |].
  intros H. apply andb_prop in H as [Ht Hts].
  destruct t; [discriminate |]. simpl. now apply IH.
Qed.

(** ** The loop in the module as it is *)

Lemma calls_app (l1 l2 : list Event) : calls (l1 ++ l2) = calls l1 + calls l2.
Proof.
  induction l1 as [|[p|l|n] l1 IH]; simpl; auto.
Qed.

Lemma sleeps_app (l1 l2 : list Event) :
  sleeps (l1 ++ l2) = (sleeps l1 ++ sleeps l2)%list.
Proof.
  induction l1 as [|[p|l|n] l1 IH]; simpl; auto. now rewrite IH.
Qed.

Section GeneratorFacts.

Variable json_dumps : Schema -> string.
Variable ModelState : Type.
Variable generate_content : ModelState -> string -> Reply * ModelState.

(** The retry loop with the globals of the module: one call, then either
    the text or the [NameError]. *)
Lemma backoff_loop_module (fuel : nat) (prompt : string) (w : World ModelState) :
  backoff_loop generate_content module_globals (S fuel) 0 prompt w =
  match generate_content (model w) prompt with
  | (Text text, m') =>
      (Normal text, mkWorld m' (events w ++ [EvGenerate prompt])%list)
  | (Raises, m') =>
      (Raised (NameError "time"),
       mkWorld m' (events w ++ [EvGenerate prompt; EvPrint (retry_message 2)])%list)
  end.
Proof.
  cbn [backoff_loop]. change (0 <? max_retries)%nat with true.
  cbv iota. unfold bind at 1. unfold call_model.
  destruct (generate_content (model w) prompt) as [[text|] m'].
  - reflexivity.
  - unfold bind, emit, time_sleep, load_global, raise. simpl.
    now rewrite <- app_assoc.
Qed.

Lemma loop_body_module (i : nat) (tool : Tool) (st : LoopState)
      (w : World ModelState) :
  loop_body json_dumps generate_content module_globals i tool st w =
  match output_schema_of tool (current_schema st) with
  | Failure e => (Raised e, w)
  | Success out =>
      let prompt :=
        tool_prompt tool (current_cte st) (json_dumps (current_schema st)) in
      match generate_content (model w) prompt with
      | (Text text, m') =>
          (Normal
             (mkLoop ("cte_" ++ PyStr.of_nat (i + 1)) out
                     (sql_steps st ++
                      [step_of tool ("cte_" ++ PyStr.of_nat (i + 1)) out
                               (current_cte st) (clean_snippet text)])%list),
           mkWorld m' (events w ++ [EvGenerate prompt])%list)
      | (Raises, m') =>
          (Raised (NameError "time"),
           mkWorld m'
             (events w ++ [EvGenerate prompt; EvPrint (retry_message 2)])%list)
      end
  end.
Proof.
  unfold loop_body, bind at 1, lift.
  destruct (output_schema_of tool (current_schema st)) as [out|e];
    [| reflexivity].
  unfold ret at 1. unfold bind. change max_retries with (S 4).
  rewrite backoff_loop_module. cbv zeta.
  destruct (generate_content (model w) _) as [[text|] m']; [| reflexivity].
  unfold ret, step_of, PyDict.copy. now destruct tool.
Qed.

(** What an iteration that ends normally appends, whatever the globals. *)
Lemma loop_body_step globals (i : nat) (tool : Tool) (st st' : LoopState)
      (w w' : World ModelState) :
  loop_body json_dumps generate_content globals i tool st w = (Normal st', w') ->
  exists out text,
    output_schema_of tool (current_schema st) = Success out /\
    st' = mkLoop ("cte_" ++ PyStr.of_nat (i + 1)) out
                 (sql_steps st ++
                  [step_of tool ("cte_" ++ PyStr.of_nat (i + 1)) out
                           (current_cte st) (clean_snippet text)])%list.
Proof.
  unfold loop_body, bind at 1, lift.
  destruct (output_schema_of tool (current_schema st)) as [out|e];
    [| discriminate].
  unfold ret at 1. unfold bind.
  destruct (backoff_loop generate_content globals max_retries 0 _ w)
    as [[text|e|r] w1]; try discriminate.
  unfold ret. intros H. injection H as <- <-.
  exists out, text. split; [reflexivity |].
  unfold step_of, PyDict.copy. now destruct tool.
Qed.

Lemma output_schema_failure (tool : Tool) (s : Schema) (e : py_exn) :
  output_schema_of tool s = Failure e -> exists k, e = KeyError k.
Proof.
  destruct tool; simpl; [| discriminate].
  intros H. apply select_schema_failure in H as [g [_ [_ [_ ->]]]]. now eexists.
Qed.

Lemma for_tools_module (tools : list Tool) :
  forall i st (w : World ModelState),
  exists o w' evs,
    for_tools json_dumps generate_content module_globals i tools st w = (o, w') /\
    events w' = (events w ++ evs)%list /\
    calls evs <= length tools /\ sleeps evs = [] /\
    ((exists st', o = Normal st' /\
                  length (sql_steps st') = length (sql_steps st) + length tools) \/
     (exists k, o = Raised (KeyError k)) \/
     o = Raised (NameError "time")).
Proof.
  induction tools as [|t ts IH]; intros i st w.
  - exists (Normal st), w, []. simpl. rewrite app_nil_r.
    repeat split; auto. left. exists st. split; [reflexivity | lia].
  - cbn [for_tools]. unfold bind. rewrite loop_body_module.
    destruct (output_schema_of t (current_schema st)) as [out|e] eqn:Eo.
    + cbv zeta.
      destruct (generate_content (model w) _) as [[text|] m'].
      * match goal with
        | |- context [for_tools _ _ _ (S i) ts ?st1 ?w1] =>
            destruct (IH (S i) st1 w1) as [o [w' [evs [Hrun [Hev [Hc [Hs Ho]]]]]]]
        end.
        exists o, w', (EvGenerate
                         (tool_prompt t (current_cte st)
                                      (json_dumps (current_schema st))) :: evs).
        rewrite Hrun, Hev. simpl. rewrite <- app_assoc. simpl.
        repeat split; [lia | assumption |].
        destruct Ho as [[st' [-> Hl]] | Ho]; [left | right; exact Ho].
        exists st'. split; [reflexivity |].
        rewrite Hl. simpl. rewrite length_app. simpl. lia.
      * eexists _, _, [_; _]. simpl. repeat split; [lia |]. now right; right.
    + destruct (output_schema_failure _ _ _ Eo) as [k ->].
      exists (Raised (KeyError k)), w, []. simpl. rewrite app_nil_r.
      repeat split; [lia |]. right. left. now exists k.
Qed.



(** X9: a run calls the model at most once per tool and never sleeps. *)
Theorem at_most_one_call_per_tool (tools : list Tool) (w : World ModelState) :
  exists evs,
    events (snd (generate_sql_from_tools json_dumps generate_content tools w))
    = (events w ++ evs)%list /\
    calls evs <= length tools /\ sleeps evs = [].
Proof.
  unfold generate_sql_from_tools, generate_sql_with, generate_sql_body, bind.
  destruct (for_tools_module tools 0
              (mkLoop initial_cte initial_schema []) w)
    as [o [w' [evs [Hrun [Hev [Hc [Hs Ho]]]]]]].
  rewrite Hrun. exists evs.
  destruct o as [st'|e|r]; simpl; auto.
  unfold assemble. destruct (sql_steps st'); simpl; auto.
  destruct tools; simpl; auto.
Qed.

End GeneratorFacts.

(** ** The steps of a successful run *)

Section StepFacts.

Variable json_dumps : Schema -> string.
Variable ModelState : Type.
Variable generate_content : ModelState -> string -> Reply * ModelState.

(** A query is returned only by the last statement of the function. *)
Lemma generate_success_inv (tools : list Tool) (w w' : World ModelState)
      (q : string) :
  generate_sql_from_tools json_dumps generate_content tools w = (Success q, w') ->
  exists st first others,
    tools = first :: others /\
    for_tools json_dumps generate_content module_globals 0 tools
      (mkLoop initial_cte initial_schema []) w = (Normal st, w') /\
    q = final_query_text
          (PyStr.replace ("FROM " ++ format_id (tool_id first)) source_table
             (PyStr.join (PyStr.nl ++ PyStr.nl) (sql_steps st)))
          (PyStr.join ", " (PyDict.keys (current_schema st)))
          (current_cte st).
Proof.
  unfold generate_sql_from_tools, generate_sql_with, generate_sql_body, bind.
  destruct (for_tools json_dumps generate_content module_globals 0 tools
              (mkLoop initial_cte initial_schema []) w) as [[st|e|r] w1] eqn:Ef.
  - unfold assemble. destruct (sql_steps st) as [|s0 ss] eqn:Es;
      [unfold return_; congruence |].
    destruct tools as [|first others]; [unfold raise; congruence |].
    unfold ret. intros H. injection H as <- <-.
    exists st, first, others. now rewrite Es.
  - congruence.
  - apply for_tools_returned in Ef. subst r. congruence.
Qed.

Lemma for_tools_steps globals (tools : list Tool) :
  forall i st st' (w w' : World ModelState),
    for_tools json_dumps generate_content globals i tools st w = (Normal st', w') ->
    exists steps,
      sql_steps st' = (sql_steps st ++ steps)%list /\
      length steps = length tools /\
      forall k tool,
        nth_error tools k = Some tool ->
        exists text schema_k out_k,
          propagate (firstn k tools) (current_schema st) = Success schema_k /\
          output_schema_of tool schema_k = Success out_k /\
          nth_error steps k =
          Some (step_of tool ("cte_" ++ PyStr.of_nat (i + k + 1)) out_k
                        match k with
                        | O => current_cte st
                        | S _ => "cte_" ++ PyStr.of_nat (i + k)
                        end
                        (clean_snippet text)).
Proof.
  induction tools as [|t ts IH]; intros i st st' w w'.
  - simpl. unfold ret. intros H. injection H as <- <-.
    exists []. rewrite app_nil_r. repeat split.
    intros [|k] tool Hk; discriminate.
  - cbn [for_tools].
    destruct (loop_body json_dumps generate_content globals i t st w)
      as [[st1|e|r1] w1] eqn:Eb; intros H.
    + rewrite (bind_normal _ _ _ _ _ _ Eb) in H.
      apply loop_body_step in Eb as [out [text [Ho ->]]].
      apply IH in H as [steps [Hsteps [Hlen Hnth]]]. cbn [sql_steps] in Hsteps.
      exists (step_of t ("cte_" ++ PyStr.of_nat (i + 1)) out (current_cte st)
                      (clean_snippet text) :: steps).
      split; [now rewrite Hsteps, <- app_assoc |].
      split; [simpl; now rewrite Hlen |].
      intros [|k] tool Hk.
      * simpl in Hk. injection Hk as <-.
        exists text, (current_schema st), out.
        repeat split; [assumption |]. simpl. now rewrite Nat.add_0_r.
      * simpl in Hk. destruct (Hnth k tool Hk) as [text' [sk [ok [Hp [Hok Hs]]]]].
        exists text', sk, ok. cbn [firstn propagate current_schema] in *.
        rewrite Ho. split; [exact Hp |]. split; [exact Hok |].
        cbn [nth_error]. rewrite Hs.
        replace (S i + k + 1) with (i + S k + 1) by lia.
        destruct k as [|k']; [reflexivity |].
        now replace (S i + S k') with (i + S (S k')) by lia.
    + rewrite (bind_raised _ _ _ _ _ _ Eb) in H. discriminate.
    + rewrite (bind_returned _ _ _ _ _ _ Eb) in H. discriminate.
Qed.

(** X10: in a compiled query the steps form a chain: there is one step per
    tool, the step of the tool at position [k] (from 0) defines [cte_(k+1)]
    and reads from [initial_data] when it is the first and from [cte_k]
    otherwise; a Select step wraps the cleaned fragment, a Filter step
    selects the columns of the schema reached after the tools before it. *)
Theorem steps_form_a_chain (tools : list Tool) (w w' : World ModelState)
        (q : string) :
  generate_sql_from_tools json_dumps generate_content tools w = (Success q, w') ->
  exists steps first others cols cte,
    tools = first :: others /\
    length steps = length tools /\
    q = final_query_text
          (PyStr.replace ("FROM " ++ format_id (tool_id first)) source_table
             (PyStr.join (PyStr.nl ++ PyStr.nl) steps)) cols cte /\
    forall k tool,
      nth_error tools k = Some tool ->
      exists text schema_k out_k,
        propagate (firstn k tools) initial_schema = Success schema_k /\
        output_schema_of tool schema_k = Success out_k /\
        nth_error steps k =
        Some (step_of tool ("cte_" ++ PyStr.of_nat (k + 1)) out_k
                      (previous_cte k) (clean_snippet text)).
Proof.
  intros H. apply generate_success_inv in H as [st [first [others [Ht [Hf Hq]]]]].
  apply for_tools_steps in Hf as [steps [Hsteps [Hlen Hnth]]].
  simpl in Hsteps. rewrite Hsteps in Hq.
  exists steps, first, others. eexists. eexists.
  repeat split; [exact Ht | exact Hlen | exact Hq |].
  intros k tool Hk. destruct (Hnth k tool Hk) as [text [sk [ok [Hp [Hok Hs]]]]].
  exists text, sk, ok. repeat split; assumption.
Qed.

(** X11: every type in the schema the loop reaches is a type of the source
    data, [STRING] or [FLOAT]: tools rename and drop columns, they never
    make a type. *)
Theorem schema_types_closed globals (tools : list Tool) (st' : LoopState)
        (w w' : World ModelState) (k ty : string) :
  for_tools json_dumps generate_content globals 0 tools
    (mkLoop initial_cte initial_schema []) w = (Normal st', w') ->
  PyDict.get (current_schema st') k = Some ty ->
  ty = "STRING" \/ ty = "FLOAT".
Proof.
  intros Hf Hk. apply for_tools_normal in Hf as [Hp _]. simpl in Hp.
  destruct (propagate_types _ _ _ Hp k ty Hk) as [k0 Hk0].
  unfold initial_schema in Hk0. simpl in Hk0.
  repeat match type of Hk0 with
         | (if ?b then _ else _) = _ =>
             destruct b; [injection Hk0 as <-; auto |]
         end.
  discriminate.
Qed.

(** X12: a workflow of Filter tools only, once compiled, selects the four
    columns of the source data from its last CTE. *)
Theorem filters_keep_source_columns (tools : list Tool)
        (w w' : World ModelState) (q : string) :
  forallb is_filter tools = true ->
  generate_sql_from_tools json_dumps generate_content tools w = (Success q, w') ->
  exists body,
    q = final_query_text body
          "OrderID, CustomerName, ProductCategory, SalesAmount"
          ("cte_" ++ PyStr.of_nat (length tools)).
Proof.
  intros Hall H.
  apply generate_success_inv in H as [st [first [others [Ht [Hf Hq]]]]].
  apply for_tools_normal in Hf as [Hp [_ Hlast]]. simpl in Hp.
  rewrite (propagate_filters tools initial_schema Hall) in Hp.
  injection Hp as Hp. rewrite <- Hp in Hq.
  rewrite Ht in Hlast. destruct Hlast as [Hc _]. rewrite <- Ht in Hc.
  simpl in Hc. rewrite Hc in Hq. eexists. exact Hq.
Qed.

(** When the model answers every call, the loop goes through as soon as
    the schema propagates. *)
Lemma for_tools_reliable (tools : list Tool) :
  (forall m p, exists text, fst (generate_content m p) = Text text) ->
  forall i st fs (w : World ModelState),
    propagate tools (current_schema st) = Success fs ->
    exists st' w' evs,
      for_tools json_dumps generate_content module_globals i tools st w
      = (Normal st', w') /\
      events w' = (events w ++ evs)%list /\
      length evs = length tools /\ forallb is_call evs = true.
Proof.
  intros Hrel. induction tools as [|t ts IH]; intros i st fs w Hp.
  - exists st, w, []. simpl. now rewrite app_nil_r.
  - cbn [for_tools propagate] in *. unfold bind. rewrite loop_body_module.
    destruct (output_schema_of t (current_schema st)) as [out|e]; [| discriminate].
    cbv zeta. destruct (Hrel (model w)
                          (tool_prompt t (current_cte st)
                                       (json_dumps (current_schema st))))
      as [text Ht].
    destruct (generate_content (model w) _) as [reply m']. simpl in Ht. subst reply.
    match goal with
    | |- context [for_tools _ _ _ (S i) ts ?st1 ?w1] =>
        destruct (IH (S i) st1 fs w1 Hp) as [st' [w' [evs [Hrun [Hev [Hl Hc]]]]]]
    end.
    exists st', w',
      (EvGenerate (tool_prompt t (current_cte st)
                               (json_dumps (current_schema st))) :: evs).
    rewrite Hrun, Hev. simpl. rewrite <- app_assoc. simpl.
    repeat split; [now rewrite Hl | exact Hc].
Qed.

(** X13: with a model that answers every call, a non-empty list of tools
    whose schema propagates compiles: a query is returned after exactly one
    call of the model per tool, and nothing is printed or slept. *)
Theorem reliable_model_compiles (tools : list Tool) (fs : Schema)
        (w : World ModelState) :
  (forall m p, exists text, fst (generate_content m p) = Text text) ->
  tools <> [] ->
  propagate tools initial_schema = Success fs ->
  exists q w' evs,
    generate_sql_from_tools json_dumps generate_content tools w = (Success q, w') /\
    events w' = (events w ++ evs)%list /\
    length evs = length tools /\ forallb is_call evs = true.
Proof.
  intros Hrel Hne Hp.
  destruct (for_tools_reliable tools Hrel 0
              (mkLoop initial_cte initial_schema []) fs w Hp)
    as [st' [w' [evs [Hrun [Hev [Hl Hc]]]]]].
  unfold generate_sql_from_tools, generate_sql_with, generate_sql_body, bind.
  rewrite Hrun. apply for_tools_normal in Hrun as [_ [Hlen _]]. simpl in Hlen.
  unfold assemble. destruct (sql_steps st') as [|s0 ss].
  - destruct tools; [now elim Hne | discriminate].
  - destruct tools as [|first others]; [now elim Hne |].
    eexists. exists w', evs. repeat split; assumption.
Qed.

End StepFacts.

(** ** What cleaning does to the model's text *)

Lemma prefix_cons (a b : ascii) (p s : string) :
  prefix (String a p) (String b s) = if ascii_dec a b then prefix p s else false.
Proof. reflexivity. Qed.

Lemma prefix_nil (s : string) : prefix EmptyString s = true.
Proof. now destruct s. Qed.

Lemma scan_cons (old new : string) (c : ascii) (s : string) :
  PyStr.replace_scan old new 0 (String c s) =
  if prefix old (String c s)
  then new ++ PyStr.replace_scan old new (pred (String.length old)) s
  else String c (PyStr.replace_scan old new 0 s).
Proof. reflexivity. Qed.

Lemma scan_starts_with_tick (s : string) :
  prefix "`" (PyStr.replace_scan "```" EmptyString 0 s) = true ->
  prefix "`" s = true.
Proof.
  destruct s as [|c s']; [discriminate |].
  rewrite scan_cons, !prefix_cons, prefix_nil.
  destruct (ascii_dec "`" c) as [<-|Hc]; [reflexivity |].
  rewrite prefix_cons. destruct (ascii_dec "`" c); [contradiction | discriminate].
Qed.

Lemma scan_starts_with_two_ticks (s : string) :
  prefix "``" (PyStr.replace_scan "```" EmptyString 0 s) = true ->
  prefix "``" s = true.
Proof.
  destruct s as [|c s']; [discriminate |].
  rewrite scan_cons, !prefix_cons.
  destruct (ascii_dec "`" c) as [<-|Hc].
  - destruct (prefix "``" s') eqn:E2.
    + intros _. destruct s' as [|c' s'']; [discriminate |].
      rewrite prefix_cons in E2 |- *.
      destruct (ascii_dec "`" c'); [apply prefix_nil | discriminate].
    + rewrite prefix_cons. destruct (ascii_dec "`" "`"); [| contradiction].
      intros H. now apply scan_starts_with_tick in H.
  - rewrite prefix_cons. destruct (ascii_dec "`" c); [contradiction | discriminate].
Qed.

Lemma scan_no_fence (s : string) :
  forall k,
    PyStr.contains "```" (PyStr.replace_scan "```" EmptyString k s) = false.
Proof.
  induction s as [|c s IH]; intros k.
  - reflexivity.
  - destruct k as [|k]; [| apply IH].
    rewrite scan_cons. destruct (prefix "```" (String c s)) eqn:E3; [apply IH |].
    cbn [PyStr.contains]. rewrite IH, orb_false_r.
    rewrite prefix_cons in E3 |- *.
    destruct (ascii_dec "`" c) as [<-|Hc]; [| reflexivity].
    destruct (prefix "``" (PyStr.replace_scan "```" EmptyString 0 s)) eqn:E;
      [| reflexivity].
    apply scan_starts_with_two_ticks in E. congruence.
Qed.

(** X14: whatever the model returns, the fragment put into the step has no
    code fence: three backticks in a row never remain. *)
Theorem clean_snippet_has_no_fence (response_text : string) :
  PyStr.contains "```" (clean_snippet response_text) = false.
Proof.
  unfold clean_snippet. unfold PyStr.replace at 1. simpl PyStr.is_empty.
  apply scan_no_fence.
Qed.

Lemma scan_plain (p new s : string) :
  no_tick s = true -> PyStr.replace_scan (String "`" p) new 0 s = s.
Proof.
  induction s as [|c s IH]; [reflexivity |].
  simpl no_tick. intros H. apply andb_prop in H as [Hc Hs].
  rewrite scan_cons, prefix_cons.
  destruct (ascii_dec "`" c) as [<-|_]; [discriminate |].
  now rewrite IH.
Qed.

Lemma lstrip_no_tick (p : ascii -> bool) (s : string) :
  no_tick s = true -> no_tick (PyStr.lstrip_with p s) = true.
Proof.
  induction s as [|c s IH]; [reflexivity |].
  intros H. cbn [PyStr.lstrip_with]. destruct (p c); [| exact H].
  simpl in H. apply andb_prop in H as [_ Hs]. now apply IH.
Qed.

Lemma rstrip_no_tick (p : ascii -> bool) (s : string) :
  no_tick s = true -> no_tick (PyStr.rstrip_with p s) = true.
Proof.
  induction s as [|c s IH]; [reflexivity |].
  simpl no_tick. intros H. apply andb_prop in H as [Hc Hs].
  cbn [PyStr.rstrip_with].
  destruct (PyStr.is_empty (PyStr.rstrip_with p s) && p c); [reflexivity |].
  simpl. now rewrite Hc, IH.
Qed.

(** X15: a response without any backtick is only trimmed: cleaning returns
    the text without its leading and trailing whitespace. *)
Theorem clean_snippet_of_plain_text (response_text : string) :
  no_tick response_text = true ->
  clean_snippet response_text = PyStr.strip response_text.
Proof.
  intros H. unfold clean_snippet, PyStr.replace. simpl PyStr.is_empty. cbv iota.
  assert (Hs : no_tick (PyStr.strip response_text) = true)
    by (unfold PyStr.strip; now apply rstrip_no_tick, lstrip_no_tick).
  now rewrite (scan_plain _ _ _ Hs), (scan_plain _ _ _ Hs).
Qed.

(** ** The retry loop where [time] is bound *)

Section RetryFacts.

Variable json_dumps : Schema -> string.
Variable ModelState : Type.
Variable generate_content : ModelState -> string -> Reply * ModelState.

Lemma backoff_loop_recovers globals (prompt text : string) :
  existsb (String.eqb "time") globals = true ->
  forall k fuel retries (w : World ModelState),
    k < fuel -> fuel + retries = max_retries ->
    fails_then_answers generate_content (model w) prompt k text ->
    exists w' evs,
      backoff_loop generate_content globals fuel retries prompt w
      = (Normal text, w') /\
      events w' = (events w ++ evs)%list /\
      calls evs = S k /\
      sleeps evs = map (fun j => 2 ^ j) (seq (retries + 1) k).
Proof.
  intros Htime. induction k as [|k IH]; intros fuel retries w Hk Hsum Hm;
    (destruct fuel as [|fuel]; [lia |]); cbn [backoff_loop];
    replace (retries <? max_retries)%nat with true
      by (symmetry; apply Nat.ltb_lt; lia);
    unfold bind at 1; unfold call_model; simpl in Hm.
  - destruct (generate_content (model w) prompt) as [reply m']. simpl in Hm.
    subst reply. eexists. exists [EvGenerate prompt]. now repeat split.
  - destruct Hm as [Hf Hrest].
    destruct (generate_content (model w) prompt) as [reply m']. simpl in Hf, Hrest.
    subst reply. unfold bind, emit, time_sleep, load_global, bind.
    rewrite Htime. simpl.
    match goal with
    | |- context [backoff_loop _ _ _ _ _ ?w0] =>
        destruct (IH fuel (retries + 1) w0) as [w' [evs [Hrun [Hev [Hc Hs]]]]];
        [lia | lia | exact Hrest |]
    end.
    exists w',
      (EvGenerate prompt :: EvPrint (retry_message (2 ^ (retries + 1)))
       :: EvSleep (2 ^ (retries + 1)) :: evs).
    rewrite Hrun, Hev. simpl. rewrite <- !app_assoc. simpl.
    repeat split; [now rewrite Hc |].
    rewrite Hs. now replace (retries + 1 + 1) with (S (retries + 1)) by lia.
Qed.

(** X16: in a module where [time] is bound, the retry loop gets over
    failures: if the model raises on the first [k] calls, [k] less than 5,
    and then answers, the loop returns that answer after [k + 1] calls,
    having slept 2, 4, ..., 2^k seconds, each wait twice the one before. *)
Theorem retry_recovers_with_time globals (prompt text : string) (k : nat)
        (w : World ModelState) :
  existsb (String.eqb "time") globals = true ->
  k < max_retries ->
  fails_then_answers generate_content (model w) prompt k text ->
  exists w' evs,
    backoff_loop generate_content globals max_retries 0 prompt w
    = (Normal text, w') /\
    events w' = (events w ++ evs)%list /\
    calls evs = S k /\
    sleeps evs = map (fun j => 2 ^ j) (seq 1 k).
Proof.
  intros Htime Hk Hm.
  now apply (backoff_loop_recovers globals prompt text Htime k max_retries 0 w).
Qed.

(** X17: in a module where [time] is bound, a model that raises on every
    call makes the function give up on the first tool: five calls, waits of
    2, 4, 8, 16 and 32 seconds, then the retries message and no query. *)
Theorem retry_exhausts_with_time globals (tool : Tool) (rest : list Tool)
        (out : Schema) (w : World ModelState) :
  existsb (String.eqb "time") globals = true ->
  (forall m p, fst (generate_content m p) = Raises) ->
  output_schema_of tool initial_schema = Success out ->
  exists w' evs,
    generate_sql_with json_dumps generate_content globals (tool :: rest) w
    = (Failure ErrModelRetries, w') /\
    events w' = (events w ++ evs)%list /\
    calls evs = 5 /\ sleeps evs = [2; 4; 8; 16; 32].
Proof.
  intros Htime Hfail Ho.
  destruct (backoff_loop_with_time ModelState generate_content globals
              (tool_prompt tool initial_cte (json_dumps initial_schema)) w
              Hfail Htime) as [w' [evs [Hrun [Hev [Hc Hs]]]]].
  exists w', evs. repeat split; try assumption.
  unfold generate_sql_with, generate_sql_body.
  erewrite bind_returned; [reflexivity |].
  cbn [for_tools]. apply bind_returned. unfold loop_body.
  erewrite bind_normal by (unfold lift; cbn [current_schema]; now rewrite Ho).
  apply bind_returned. exact Hrun.
Qed.

End RetryFacts.

(** ** The route *)


Section RouteFacts.

Variable ET_fromstring : string -> option ET.Element.
Variable ET_tostring : ET.Element -> string.
Variable json_dumps : Schema -> string.
Variable ModelState : Type.
Variable generate_content : ModelState -> string -> Reply * ModelState.



(** X19: the route shows a query exactly when the form field is not
    empty, the document parses into tools and those tools compile; the
    query shown is the compiled one. *)
Theorem route_query_iff (form_value : option string) (w w' : World ModelState)
        (q : string) :
  Routes.generate ET_fromstring ET_tostring json_dumps generate_content
                  form_value w = (QueryPage q, w')
  <->
  exists xml_string tools,
    form_value = Some xml_string /\ xml_string <> EmptyString /\
    parse_alteryx_xml ET_fromstring ET_tostring xml_string = Success tools /\
    generate_sql_from_tools json_dumps generate_content tools w = (Success q, w').
Proof.
  unfold Routes.generate. split.
  - destruct form_value as [xml_string|]; [| discriminate].
    destruct xml_string as [|c s]; [discriminate |]. simpl PyStr.is_empty.
    cbv iota.
    destruct (parse_alteryx_xml _ _ _) as [tools|e] eqn:Ep; [| discriminate].
    destruct (generate_sql_from_tools _ _ tools w) as [[q0|e] w0] eqn:Eg;
      [| discriminate].
    intros H. injection H as <- <-.
    exists (String c s), tools. repeat split; try assumption. discriminate.
  - intros [xml_string [tools [-> [Hne [Hp Hg]]]]].
    destruct xml_string as [|c s]; [now elim Hne |]. simpl PyStr.is_empty.
    cbv iota. now rewrite Hp, Hg.
Qed.

(** X20: a well-formed document in which no node is a Select or a Filter
    gets the no-steps message, and the model is not called. *)
Theorem route_without_supported_nodes (xml_string : string) (root : ET.Element)
        (w : World ModelState) :
  xml_string <> EmptyString ->
  ET_fromstring xml_string = Some root ->
  forallb (fun node => negb (supported node))
          (ET.findall_descendants root "Node") = true ->
  Routes.generate ET_fromstring ET_tostring json_dumps generate_content
                  (Some xml_string) w
  = (ErrorPage (ErrSql ErrNoSteps), w).
Proof.
  intros Hne Hr Hall. unfold Routes.generate, parse_alteryx_xml.
  destruct xml_string as [|c s]; [now elim Hne |]. simpl PyStr.is_empty.
  cbv iota. rewrite Hr.
  destruct (extract_tools_filter ET_tostring (ET.findall_descendants root "Node"))
    as [Hx _].
  assert (Hnil : filter supported (ET.findall_descendants root "Node") = []).
  { clear Hx. induction (ET.findall_descendants root "Node") as [|n l IH];
      [reflexivity |].
    simpl in *. apply andb_prop in Hall as [Hn Hl].
    destruct (supported n); [discriminate | now apply IH]. }
  rewrite Hx, Hnil. reflexivity.
Qed.

End RouteFacts.

(** ** Failures end the run; prompts carry the schema before the tool *)

Section OrderFacts.

Variable json_dumps : Schema -> string.
Variable ModelState : Type.
Variable generate_content : ModelState -> string -> Reply * ModelState.

(** X21: once the loop has raised on a list of tools, the tools that come
    after them change nothing: the function returns the generation-error
    message with that exception, and the world is the one of the failure. *)
Theorem failure_ignores_later_tools (before after : list Tool) (e : py_exn)
        (w w' : World ModelState) :
  for_tools json_dumps generate_content module_globals 0 before
    (mkLoop initial_cte initial_schema []) w = (Raised e, w') ->
  generate_sql_from_tools json_dumps generate_content (before ++ after)%list w
  = (Failure (ErrGeneration e), w').
Proof.
  intros H. unfold generate_sql_from_tools, generate_sql_with, generate_sql_body.
  erewrite bind_raised; [reflexivity |].
  rewrite for_tools_app. now apply bind_raised.
Qed.



End OrderFacts.

(** ** The further properties at sample inputs *)

Lemma parse_ignores_other_nodes_witness :
  parse_alteryx_xml (fun _ => Some mixed_root) sample_tostring "<doc/>" =
  Success [Select (Some "1") [] "<Node ToolID='1'/>";
           Filter (Some "2") (Some "[b] > 2") "<Node ToolID='2'/>"] /\
  length [Select (Some "1") [] "<Node ToolID='1'/>";
          Filter (Some "2") (Some "[b] > 2") "<Node ToolID='2'/>"] =
  length (filter supported (ET.findall_descendants mixed_root "Node")).
Proof.
  split; [reflexivity |].
  destruct (parse_ignores_other_nodes (fun _ => Some mixed_root) sample_tostring
              "<doc/>" _ eq_refl) as [root [Hr [Hl _]]].
  injection Hr as <-. exact Hl.
Defined.



Lemma parse_keeps_order_of_equal_ids_witness :
  parse_alteryx_xml (fun _ => Some same_id_root) sample_tostring "<doc/>" =
  Success [Filter (Some "1") (Some "[a] > 1") "<Node ToolID='1'/>";
           Filter (Some "01") (Some "[c] > 3") "<Node ToolID='01'/>";
           Filter (Some "2") (Some "[b] > 2") "<Node ToolID='2'/>"] /\
  filter (fun t => Z.eqb (key_of t) 1)
         [Filter (Some "1") (Some "[a] > 1") "<Node ToolID='1'/>";
          Filter (Some "01") (Some "[c] > 3") "<Node ToolID='01'/>";
          Filter (Some "2") (Some "[b] > 2") "<Node ToolID='2'/>"] =
  filter (fun t => Z.eqb (key_of t) 1)
         (extract_tools sample_tostring
            (ET.findall_descendants same_id_root "Node")).
Proof.
  split; [reflexivity |].
  apply (parse_keeps_order_of_equal_ids (fun _ => Some same_id_root)
           sample_tostring "<doc/>" same_id_root _ 1%Z eq_refl eq_refl).
Defined.

Lemma sort_tools_twice_witness :
  sort_tools (extract_tools sample_tostring
                (ET.findall_descendants shuffled_root "Node")) =
  Success [Filter (Some "1") (Some "[a] > 1") "<Node ToolID='1'/>";
           Filter (Some "2") (Some "[b] > 2") "<Node ToolID='2'/>";
           Filter (Some "3") (Some "[c] > 3") "<Node ToolID='3'/>"] /\
  sort_tools [Filter (Some "1") (Some "[a] > 1") "<Node ToolID='1'/>";
              Filter (Some "2") (Some "[b] > 2") "<Node ToolID='2'/>";
              Filter (Some "3") (Some "[c] > 3") "<Node ToolID='3'/>"] =
  Success [Filter (Some "1") (Some "[a] > 1") "<Node ToolID='1'/>";
           Filter (Some "2") (Some "[b] > 2") "<Node ToolID='2'/>";
           Filter (Some "3") (Some "[c] > 3") "<Node ToolID='3'/>"].
Proof.
  split; [reflexivity |].
  apply (sort_tools_twice
           (extract_tools sample_tostring
              (ET.findall_descendants shuffled_root "Node")) _ eq_refl).
Defined.

Lemma select_column_order_witness :
  output_schema_of (hd region_tool demo_tools) initial_schema =
  Success [("transaction_id", "STRING"); ("CustomerName", "STRING");
           ("total_sales", "FLOAT")] /\
  PyDict.keys [("transaction_id", "STRING"); ("CustomerName", "STRING");
               ("total_sales", "FLOAT")] =
  ["transaction_id"; "CustomerName"; "total_sales"].
Proof.
  split; [reflexivity |].
  apply (proj1 (select_column_order initial_schema (Some "1")
                  [mkField (Some "OrderID") true (Some "transaction_id");
                   mkField (Some "CustomerName") true None;
                   mkField (Some "ProductCategory") false None;
                   mkField (Some "SalesAmount") true (Some "total_sales")]
                  "<Node ToolID='1'/>" _ eq_refl)).
Defined.

Lemma steps_form_a_chain_witness :
  exists w',
    generate_sql_from_tools sample_dumps (scripted_model demo_answers)
      demo_tools fresh_world = (Success demo_query, w') /\
    exists steps : list string, length steps = length demo_tools.
Proof.
  eexists.
  refine ((fun H => conj H _) _); [| vm_compute; reflexivity].
  destruct (steps_form_a_chain sample_dumps nat (scripted_model demo_answers)
              demo_tools fresh_world _ demo_query H)
    as [steps [first [others [cols [cte [_ [Hl _]]]]]]].
  now exists steps.
Defined.

Lemma schema_types_closed_witness :
  exists st' w',
    for_tools sample_dumps (scripted_model demo_answers) module_globals 0
      demo_tools (mkLoop initial_cte initial_schema []) fresh_world
    = (Normal st', w') /\
    PyDict.get (current_schema st') "total_sales" = Some "FLOAT" /\
    ("FLOAT" = "STRING" \/ "FLOAT" = "FLOAT").
Proof.
  eexists. eexists.
  match goal with
  | |- ?E /\ _ => assert (H : E) by (vm_compute; reflexivity)
  end.
  split; [exact H |]. split; [reflexivity |].
  apply (schema_types_closed sample_dumps nat (scripted_model demo_answers)
           module_globals demo_tools _ fresh_world _ "total_sales" "FLOAT" H).
  reflexivity.
Defined.

Lemma filters_keep_source_columns_witness :
  exists q w',
    generate_sql_from_tools sample_dumps (steady_model "WHERE SalesAmount > 1")
      [Filter (Some "1") (Some "[a] > 1") "<Node ToolID='1'/>";
       Filter (Some "2") (Some "[b] > 2") "<Node ToolID='2'/>"] fresh_world
    = (Success q, w') /\
    exists body,
      q = final_query_text body
            "OrderID, CustomerName, ProductCategory, SalesAmount"
            ("cte_" ++ PyStr.of_nat 2).
Proof.
  eexists. eexists.
  refine ((fun H => conj H
             (filters_keep_source_columns sample_dumps nat
                (steady_model "WHERE SalesAmount > 1")
                [Filter (Some "1") (Some "[a] > 1") "<Node ToolID='1'/>";
                 Filter (Some "2") (Some "[b] > 2") "<Node ToolID='2'/>"]
                fresh_world _ _ eq_refl H)) _).
  vm_compute. reflexivity.
Defined.

Lemma reliable_model_compiles_witness :
  exists q w' evs,
    generate_sql_from_tools sample_dumps (steady_model "SELECT OrderID")
      demo_tools fresh_world = (Success q, w') /\
    events w' = (events fresh_world ++ evs)%list /\
    length evs = length demo_tools /\ forallb is_call evs = true.
Proof.
  apply (reliable_model_compiles sample_dumps nat (steady_model "SELECT OrderID")
           demo_tools
           [("transaction_id", "STRING"); ("CustomerName", "STRING");
            ("total_sales", "FLOAT")] fresh_world).
  - intros m p. now exists "SELECT OrderID".
  - discriminate.
  - reflexivity.
Defined.

Lemma clean_snippet_of_plain_text_witness :
  no_tick "  WHERE total_sales > 1000  " = true /\
  clean_snippet "  WHERE total_sales > 1000  " = "WHERE total_sales > 1000".
Proof.
  split; [reflexivity |].
  rewrite (clean_snippet_of_plain_text "  WHERE total_sales > 1000  " eq_refl).
  reflexivity.
Defined.

Lemma retry_recovers_with_time_witness :
  fails_then_answers (flaky_model 2 "WHERE x > 1") (model fresh_world)
                     "prompt" 2 "WHERE x > 1" /\
  exists w' evs,
    backoff_loop (flaky_model 2 "WHERE x > 1") ("time" :: module_globals)
                 max_retries 0 "prompt" fresh_world = (Normal "WHERE x > 1", w') /\
    events w' = (events fresh_world ++ evs)%list /\
    calls evs = 3 /\ sleeps evs = [2; 4].
Proof.
  assert (H : fails_then_answers (flaky_model 2 "WHERE x > 1") (model fresh_world)
                                 "prompt" 2 "WHERE x > 1")
    by (simpl; repeat split).
  split; [exact H |].
  apply (retry_recovers_with_time nat (flaky_model 2 "WHERE x > 1")
           ("time" :: module_globals) "prompt" "WHERE x > 1" 2 fresh_world
           eq_refl).
  - unfold max_retries. lia.
  - exact H.
Defined.

Lemma retry_exhausts_with_time_witness :
  exists w' evs,
    generate_sql_with sample_dumps (scripted_model []) ("time" :: module_globals)
                      demo_tools fresh_world = (Failure ErrModelRetries, w') /\
    events w' = (events fresh_world ++ evs)%list /\
    calls evs = 5 /\ sleeps evs = [2; 4; 8; 16; 32].
Proof.
  apply (retry_exhausts_with_time sample_dumps nat (scripted_model [])
           ("time" :: module_globals) (hd region_tool demo_tools) (tl demo_tools)
           [("transaction_id", "STRING"); ("CustomerName", "STRING");
            ("total_sales", "FLOAT")] fresh_world eq_refl).
  - intros m p. unfold scripted_model. now destruct m.
  - reflexivity.
Defined.

Lemma route_without_supported_nodes_witness :
  forallb (fun node => negb (supported node))
          (ET.findall_descendants unsupported_root "Node") = true /\
  Routes.generate (fun _ => Some unsupported_root) sample_tostring sample_dumps
                  (scripted_model demo_answers) (Some "<doc/>") fresh_world
  = (ErrorPage (ErrSql ErrNoSteps), fresh_world).
Proof.
  split; [reflexivity |].
  apply (route_without_supported_nodes (fun _ => Some unsupported_root)
           sample_tostring sample_dumps nat (scripted_model demo_answers)
           "<doc/>" unsupported_root fresh_world).
  - discriminate.
  - reflexivity.
  - reflexivity.
Defined.

Lemma failure_ignores_later_tools_witness :
  for_tools sample_dumps (scripted_model demo_answers) module_globals 0
    [region_tool] (mkLoop initial_cte initial_schema []) fresh_world
  = (Raised (KeyError (Some "Region")), fresh_world) /\
  generate_sql_from_tools sample_dumps (scripted_model demo_answers)
    ([region_tool] ++ demo_tools)%list fresh_world
  = (Failure (ErrGeneration (KeyError (Some "Region"))), fresh_world).
Proof.
  split; [reflexivity |].
  apply (failure_ignores_later_tools sample_dumps nat
           (scripted_model demo_answers) [region_tool] demo_tools
           (KeyError (Some "Region")) fresh_world fresh_world eq_refl).
Defined.


(** ** The substitution after the loop *)

Lemma replace_absent (old new s : string) :
  PyStr.is_empty old = false ->
  PyStr.contains old s = false ->
  PyStr.replace old new s = s.
Proof.
  intros Hne. unfold PyStr.replace. rewrite Hne.
  induction s as [|c s IH]; [reflexivity |].
  cbn [PyStr.contains]. intros H. apply orb_false_elim in H as [Hp Hc].
  rewrite scan_cons, Hp. now rewrite IH.
Qed.

Section SubstitutionFacts.

Variable json_dumps : Schema -> string.
Variable ModelState : Type.
Variable generate_content : ModelState -> string -> Reply * ModelState.

(** X23: the substitution after the loop looks for [FROM] followed by the
    first tool's id; when no step contains that text the returned query is
    the header, the steps as the loop built them, joined by blank lines,
    and the final SELECT: nothing is rewritten. *)
Theorem query_keeps_steps_without_pattern (first : Tool) (others : list Tool)
        (st : LoopState) (w w' : World ModelState) :
  for_tools json_dumps generate_content module_globals 0 (first :: others)
    (mkLoop initial_cte initial_schema []) w = (Normal st, w') ->
  PyStr.contains ("FROM " ++ format_id (tool_id first))
                 (PyStr.join (PyStr.nl ++ PyStr.nl) (sql_steps st)) = false ->
  generate_sql_from_tools json_dumps generate_content (first :: others) w =
  (Success
     (final_query_text (PyStr.join (PyStr.nl ++ PyStr.nl) (sql_steps st))
                       (PyStr.join ", " (PyDict.keys (current_schema st)))
                       (current_cte st)), w').
Proof.
  intros Hf Hc.
  unfold generate_sql_from_tools, generate_sql_with, generate_sql_body.
  rewrite (bind_normal _ _ _ _ _ _ Hf).
  apply for_tools_normal in Hf as [_ [Hl _]]. simpl in Hl.
  unfold assemble. destruct (sql_steps st) as [|s0 ss] eqn:Es; [discriminate |].
  unfold ret. now rewrite replace_absent.
Qed.

End SubstitutionFacts.

Lemma query_keeps_steps_without_pattern_witness :
  exists st w',
    for_tools sample_dumps (scripted_model demo_answers) module_globals 0
      demo_tools (mkLoop initial_cte initial_schema []) fresh_world
    = (Normal st, w') /\
    PyStr.contains ("FROM " ++ "1")
                   (PyStr.join (PyStr.nl ++ PyStr.nl) (sql_steps st)) = false /\
    generate_sql_from_tools sample_dumps (scripted_model demo_answers)
      demo_tools fresh_world =
    (Success
       (final_query_text (PyStr.join (PyStr.nl ++ PyStr.nl) (sql_steps st))
                         (PyStr.join ", " (PyDict.keys (current_schema st)))
                         (current_cte st)), w').
Proof.
  eexists. eexists.
  match goal with
  | |- ?E /\ _ => assert (H : E) by (vm_compute; reflexivity)
  end.
  split; [exact H |].
  split; [vm_compute; reflexivity |].
  apply (query_keeps_steps_without_pattern sample_dumps nat
           (scripted_model demo_answers) (hd region_tool demo_tools)
           (tl demo_tools) _ fresh_world _ H).
  vm_compute. reflexivity.
Defined.
